(** * Leica Disto D2 keyboard bridge ([measure.py]): model and properties

    The script subscribes to the distance characteristic of a laser distance
    meter over BLE.  Every notification runs [handle_distance_notification],
    which looks at two module globals ([button_clicked], [miss_counter]) to
    decide whether the notification is a button press (then the laser is
    switched on and, after [AIM_DELAY], a measurement is commanded) or a
    reading (then the value is typed through [xdotool]).

    The development below embeds the script function by function:
    - [PyFloat]: the binary32 decoding of [struct.unpack("<f", ...)], the
      binary64 product with 1000 and the [:.1f] formatting, on exact
      integers;
    - [Runtime]: a small monad for the script's effects: module globals,
      calls into bleak / asyncio / subprocess whose outcome the environment
      chooses, Python exceptions with [try/except Exception] and
      [try/finally], and the log of what was printed and called;
    - [Measure]: the functions of [measure.py], in source order;
    - [Observe]: what a log says, the steps of a run of the handler, and
      sample environments;
    - [Props]: the properties of the notification arbiter, the device
      commands, discovery and the session;
    - [More]: further properties of the same functions and of the ones
      around them (the keystroke emitter, [clear_device], the connection
      step, [handle_notifications], the error paths of [main]).

    The handler is a coroutine, and the BLE stack starts one task per
    notification.  Each invocation reads and writes the globals before the
    first point at which it can be suspended (its writes to the device),
    and [counter_lock] is held across a suspension in the "bad state"
    branch only, which is not taken from the initial globals.  The
    invocations are therefore taken one at a time, in the order of the
    notifications: this gives the globals, the strings typed and the
    number of calls of a session; it says nothing about how the device
    writes of overlapping handlers are ordered in time. *)

From Stdlib Require Import ZArith QArith String Ascii List Lia DecimalString.
From Stdlib.Strings Require Import Byte.
From stdpp Require Import base gmap strings list.

Local Open Scope string_scope.
Local Open Scope list_scope.
Local Open Scope Z_scope.

(* ===================================================================== *)
(** ** Python floats, as far as the script uses them *)
(* ===================================================================== *)

Module PyFloat.

(** A Python [float] is an IEEE-754 binary64.  [Finite neg m e] stands for
    [(-1)^neg * m * 2^e] with [0 <= m]; the representation is not
    normalised, what matters is the value and the sign (of zero too). *)
Inductive float : Type :=
| NaN
| Inf (neg : bool)
| Finite (neg : bool) (m : Z) (e : Z).

(** The unsigned integer held by a little-endian byte string. *)
Definition le_uint (data : list byte) : Z :=
  fold_right (fun b acc => Z.lor (Z.of_N (Byte.to_N b)) (Z.shiftl acc 8)) 0 data.

(** Fields of a binary32 word: 1 sign bit, 8 exponent bits, 23 fraction
    bits.  The widening to binary64 that [struct.unpack] performs is exact. *)
Definition decode_binary32 (w : Z) : float :=
  let sign := Z.testbit w 31 in
  let ex := Z.land (Z.shiftr w 23) 255 in
  let frac := Z.land w (Z.ones 23) in
  if ex =? 255 then (if frac =? 0 then Inf sign else NaN)
  else if ex =? 0 then Finite sign frac (-149)
  else Finite sign (Z.lor frac (Z.shiftl 1 23)) (ex - 150).

(** Round [m * 2^e] to binary64: 53 significant bits, least exponent
    [-1074], ties to even, overflow to infinity. *)
Definition round_binary64 (neg : bool) (m e : Z) : float :=
  if m <=? 0 then Finite neg 0 0
  else
    let e' := Z.max (e + (Z.log2 m + 1) - 53) (-1074) in
    if e' <=? e then
      if 1024 <=? Z.log2 m + e then Inf neg else Finite neg m e
    else
      let sh := e' - e in
      let q := Z.shiftr m sh in
      let r := Z.land m (Z.ones sh) in
      let half := Z.shiftl 1 (sh - 1) in
      let q' := if (half <? r) || ((r =? half) && Z.odd q) then q + 1 else q in
      if 1024 <=? Z.log2 q' + e' then Inf neg else Finite neg q' e'.

(** [float(n)] for an [int] small enough to be exact (the script only
    converts the literal [1000]). *)
Definition of_int (n : Z) : float := round_binary64 (n <? 0) (Z.abs n) 0.

(** [a * b] on floats. *)
Definition mul (a b : float) : float :=
  match a, b with
  | NaN, _ | _, NaN => NaN
  | Inf s, Inf t => Inf (xorb s t)
  | Inf s, Finite t m _ | Finite t m _, Inf s =>
      if m =? 0 then NaN else Inf (xorb s t)
  | Finite s m1 e1, Finite t m2 e2 =>
      round_binary64 (xorb s t) (m1 * m2) (e1 + e2)
  end.

(** Nearest integer to [n * 2^e], ties to even ([0 <= n]). *)
Definition round_half_even (n e : Z) : Z :=
  if 0 <=? e then Z.shiftl n e
  else
    let d := Z.shiftl 1 (- e) in
    let q := n / d in
    let r := n mod d in
    if (d <? 2 * r) || ((2 * r =? d) && Z.odd q) then q + 1 else q.

Definition decimal (n : Z) : string :=
  NilZero.string_of_uint (N.to_uint (Z.to_N n)).

(** [format(x, ".1f")]: the correctly rounded decimal with one digit after
    the point. *)
Definition format_1f (x : float) : string :=
  match x with
  | NaN => "nan"
  | Inf false => "inf"
  | Inf true => "-inf"
  | Finite neg m e =>
      let tenths := round_half_even (m * 10) e in
      ((if neg then "-" else "") ++ decimal (tenths / 10) ++ "." ++ decimal (tenths mod 10))%string
  end.

End PyFloat.

(* ===================================================================== *)
(** ** The effects of the script *)
(* ===================================================================== *)

Module Runtime.

(** *** Exceptions *)

(** Instances of [Exception]: the class name and [str(e)]. *)
Record Exception : Type := mkException { exc_class : string; exc_str : string }.

(** What a [raise] can carry.  [asyncio.CancelledError] and
    [KeyboardInterrupt] derive from [BaseException] only, so
    [except Exception] lets them through. *)
Inductive BaseException : Type :=
| Exc (e : Exception)
| CancelledError
| KeyboardInterrupt.

Inductive result (A : Type) : Type :=
| Returned (a : A)
| Raised (e : BaseException).
Arguments Returned {A} a.
Arguments Raised {A} e.

(** *** Objects of the BLE stack *)

(** A scan result.  Of [d.metadata] only string-list entries (such as
    ["uuids"]) are kept. *)
Record BLEDevice : Type := mkDevice {
  address : string;
  name : option string;
  metadata : gmap string (list string)
}.

Record BleakClient : Type := mkClient { client_address : string }.

Record BleakGATTCharacteristic : Type := mkCharacteristic { uuid : string; handle : Z }.

(** *** Calls that leave the script *)

(** Awaited calls: they suspend the coroutine, and may end in any
    [BaseException] (cancellation included). *)
Inductive aop : Type -> Type :=
| BleakScanner_discover : aop (list BLEDevice)
| connect (client : BleakClient) : aop unit
| disconnect (client : BleakClient) : aop unit
| write_gatt_char (client : BleakClient) (char : BleakGATTCharacteristic)
    (data : list byte) : aop unit
| start_notify (client : BleakClient) (char : BleakGATTCharacteristic) : aop unit
| asyncio_sleep (delay : Q) : aop unit
| disconnect_event_wait : aop unit.

(** Plain calls: they return or raise an [Exception]. *)
Inductive sop : Type -> Type :=
| BleakClient_new (address : string) : sop BleakClient
| get_characteristic (client : BleakClient) (uuid : string)
    : sop (option BleakGATTCharacteristic)
| subprocess_call (args : list string) : sop Z
| add_signal_handler_SIGINT : sop unit.

(** Functions of the script whose invocations are counted. *)
Inductive fn : Type := Fn_do_measure | Fn_clear_device.

(** *** The log *)
Inductive event : Type :=
| Print (line : string)
| Await {R : Type} (o : aop R)
| Call {R : Type} (o : sop R)
| Enter (f : fn).

(** *** Module globals ([button_clicked], [miss_counter],
    [disconnect_event]); a Python [int] is unbounded. *)
Record globals : Type := mkGlobals {
  button_clicked : bool;
  miss_counter : Z;
  disconnect_event : bool
}.

(** *** The environment

    It settles, from what has happened so far, how each outside call ends
    and which notifications the device delivers while [main] waits. *)
Record env : Type := mkEnv {
  await_outcome : forall R, list event -> aop R -> result R;
  call_outcome : forall R, list event -> sop R -> Exception + R;
  delivered : list event -> list (list byte)
}.

(** *** The monad: environment and history in; outcome, globals and the
    newly logged events out. *)
Definition M (A : Type) : Type :=
  env -> list event -> globals -> result A * globals * list event.

Definition ret {A} (a : A) : M A := fun _ _ g => (Returned a, g, []).

Definition bind {A B} (m : M A) (k : A -> M B) : M B :=
  fun w h g =>
    match m w h g with
    | (Returned a, g1, t1) =>
        let '(r, g2, t2) := k a w (h ++ t1) g1 in (r, g2, t1 ++ t2)
    | (Raised e, g1, t1) => (Raised e, g1, t1)
    end.

Definition raise {A} (e : BaseException) : M A := fun _ _ g => (Raised e, g, []).

Definition await {R} (o : aop R) : M R :=
  fun w h g => (await_outcome w R h o, g, [Await o]).

Definition call {R} (o : sop R) : M R :=
  fun w h g =>
    (match call_outcome w R h o with
     | inl e => Raised (Exc e)
     | inr r => Returned r
     end, g, [Call o]).

Definition print (line : string) : M unit := fun _ _ g => (Returned tt, g, [Print line]).

Definition enter (f : fn) : M unit := fun _ _ g => (Returned tt, g, [Enter f]).

Definition get : M globals := fun _ _ g => (Returned g, g, []).

Definition put (g : globals) : M unit := fun _ _ _ => (Returned tt, g, []).

Definition pending_notifications : M (list (list byte)) :=
  fun w h g => (Returned (delivered w h), g, []).

(** [try: body  except Exception as e: handler e] *)
Definition try_except {A} (body : M A) (handler : Exception -> M A) : M A :=
  fun w h g =>
    match body w h g with
    | (Raised (Exc e), g1, t1) =>
        let '(r, g2, t2) := handler e w (h ++ t1) g1 in (r, g2, t1 ++ t2)
    | other => other
    end.

(** [try: body  finally: final] *)
Definition try_finally {A} (body : M A) (final : M unit) : M A :=
  fun w h g =>
    let '(r, g1, t1) := body w h g in
    let '(rf, g2, t2) := final w (h ++ t1) g1 in
    (match rf with Raised e => Raised e | Returned _ => r end, g2, t1 ++ t2).

(** An exception that escapes a callback task is reported by the event
    loop and goes no further. *)
Definition task (body : M unit) : M unit :=
  fun w h g => let '(_, g1, t1) := body w h g in (Returned tt, g1, t1).

Declare Scope py_scope.
Delimit Scope py_scope with py.
Notation "x <- m ;; k" := (bind m (fun x => k))
  (at level 100, m at next level, right associativity) : py_scope.
Notation "m ;; k" := (bind m (fun _ => k))
  (at level 100, right associativity) : py_scope.

End Runtime.

(* ===================================================================== *)
(** ** [measure.py] *)
(* ===================================================================== *)

Module Measure.
Import PyFloat Runtime.
Local Open Scope py_scope.

(** [AIM_DELAY = 1.5] (seconds). *)
Definition AIM_DELAY : Q := 1.5%Q.

Definition send_keys (keys : string) : M unit :=
  try_except
    (call (subprocess_call ["xdotool"; "type"; keys]);; ret tt)
    (fun e => print ("failed to type " ++ exc_str e)%string).

Definition send_enter : M unit :=
  try_except
    (call (subprocess_call ["xdotool"; "key"; "Return"]);; ret tt)
    (fun e => print ("failed to type " ++ exc_str e)%string).

(** [str.lower], on the ASCII letters. *)
Definition lower_ascii (c : ascii) : ascii :=
  let n := nat_of_ascii c in
  if ((65 <=? n) && (n <=? 90))%nat then ascii_of_nat (n + 32) else c.

Fixpoint lower (s : string) : string :=
  match s with
  | EmptyString => EmptyString
  | String c rest => String (lower_ascii c) (lower rest)
  end.

(** [d[key]] on a dict: [KeyError] when the key is absent. *)
Definition subscript {V} (d : gmap string V) (key : string) : M V :=
  match d !! key with
  | Some v => ret v
  | None => raise (Exc (mkException "KeyError" ("'" ++ key ++ "'")%string))
  end.

(** [f"{x}"] for a value that may be [None]. *)
Definition str_or_None (x : option string) : string :=
  match x with Some s => s | None => "None" end.

(** The [for d in devices] loop of [scan_and_connect]: the first device
    for which the test holds, by [break]; [None] when the list runs out. *)
Fixpoint find_target_device (service_uuid : string) (devices : list BLEDevice)
  : M (option BLEDevice) :=
  match devices with
  | [] => ret None
  | d :: rest =>
      print ("Found device: " ++ address d ++ " - " ++ str_or_None (name d))%string;;
      uuids <- subscript (metadata d) "uuids";;
      if bool_decide (lower service_uuid ∈ uuids)
      then ret (Some d)
      else find_target_device service_uuid rest
  end.

Definition default_service_uuid : string := "3ab10100-f831-4395-b29d-570977d5bf94".

Definition scan_and_connect (service_uuid : string) : M (option BleakClient) :=
  try_except
    (print ("Scanning for devices with service UUID: " ++ service_uuid)%string;;
     devices <- await BleakScanner_discover;;
     target_device <- find_target_device service_uuid devices;;
     match target_device with
     | None =>
         print "Target device not found.";;
         ret None
     | Some target_device =>
         print ("Connecting to " ++ str_or_None (name target_device) ++ "...")%string;;
         client <- call (BleakClient_new (address target_device));;
         await (connect client);;
         print "Connected!";;
         ret (Some client)
     end)
    (fun e =>
       print ("Error scanning or connecting: " ++ exc_str e)%string;;
       ret None).

Definition DISTANCE_CHARACTERISTIC_UUID : string := "3AB10101-F831-4395-B29D-570977D5BF94".
Definition COMMAND_CHARACTERISTIC_UUID : string := "3AB10109-F831-4395-B29D-570977d5BF94".

Definition do_measure (client : BleakClient) : M unit :=
  enter Fn_do_measure;;
  command_characteristic <- call (get_characteristic client COMMAND_CHARACTERISTIC_UUID);;
  match command_characteristic with
  | None => print "Command characteristic not found."
  | Some command_characteristic =>
      let laser_on := [x6f] in
      let measure := [x67] in
      await (write_gatt_char client command_characteristic laser_on);;
      await (asyncio_sleep AIM_DELAY);;
      await (write_gatt_char client command_characteristic measure)
  end.

Definition clear_device (client : BleakClient) : M unit :=
  enter Fn_clear_device;;
  command_characteristic <- call (get_characteristic client COMMAND_CHARACTERISTIC_UUID);;
  match command_characteristic with
  | None => print "Command characteristic not found."
  | Some command_characteristic =>
      let laser_off := [x70] in
      await (write_gatt_char client command_characteristic laser_off)
  end.

(** [struct.unpack("<f", data)[0]] *)
Definition struct_unpack_f (data : list byte) : M float :=
  if (length data =? 4)%nat
  then ret (decode_binary32 (le_uint data))
  else raise (Exc (mkException "struct.error" "unpack requires a buffer of 4 bytes")).

Definition button_clicked_is_set : M bool :=
  g <- get;; ret (button_clicked g).

Definition button_clicked_set : M unit :=
  g <- get;; put (mkGlobals true (miss_counter g) (disconnect_event g)).

Definition button_clicked_clear : M unit :=
  g <- get;; put (mkGlobals false (miss_counter g) (disconnect_event g)).

Definition read_miss_counter : M Z :=
  g <- get;; ret (miss_counter g).

Definition write_miss_counter (v : Z) : M unit :=
  g <- get;; put (mkGlobals (button_clicked g) v (disconnect_event g)).

(** [async with counter_lock: body].  The lock is held across a
    suspension only at [await clear_device(client)] in the "bad state"
    branch, which no run from the initial globals takes
    ([Props.bad_state_unreachable]); everywhere else it is taken and
    released without a suspension in between, so it is free when asked
    for.  What later handlers do while that branch waits on the device is
    not modelled. *)
Definition with_counter_lock {A} (body : M A) : M A := body.

(** [handle_distance_notification(sender, data)], the closure returned by
    [notification_wrapper(client)]. *)
Definition notification_wrapper (client : BleakClient) (data : list byte) : M unit :=
  print "received event";;
  clicked <- button_clicked_is_set;;
  if negb clicked then
    button_clicked_set;;
    with_counter_lock
      (c <- read_miss_counter;; write_miss_counter (c + 1));;
    bad <- with_counter_lock
      (c <- read_miss_counter;;
       if 1 <? c then
         print "bad state";;
         button_clicked_clear;;
         clear_device client;;
         ret true
       else ret false);;
    if bad : bool then ret tt
    else do_measure client
  else
    with_counter_lock (write_miss_counter 0);;
    distance_meters <- struct_unpack_f data;;
    let distance_mm := mul distance_meters (of_int 1000) in
    print ("Distance: " ++ format_1f distance_mm ++ " mm")%string;;
    send_keys (format_1f distance_mm);;
    send_enter;;
    button_clicked_clear.

Definition handle_keyboard_interrupt : M unit :=
  print "Keyboard interrupt detected. Disconnecting...";;
  g <- get;; put (mkGlobals (button_clicked g) (miss_counter g) true).

(** The event loop runs the callback once per notification, each run a
    task of its own. *)
Fixpoint dispatch (callback : list byte -> M unit) (notifications : list (list byte))
  : M unit :=
  match notifications with
  | [] => ret tt
  | data :: rest => task (callback data);; dispatch callback rest
  end.

(** [await disconnect_event.wait()] after [start_notify]: while [main] is
    suspended the notifications are dispatched; the wait returns once the
    SIGINT handler has set the event, or is cancelled. *)
Definition wait_for_disconnect (callback : list byte -> M unit) : M unit :=
  notifications <- pending_notifications;;
  dispatch callback notifications;;
  await disconnect_event_wait;;
  handle_keyboard_interrupt.

Definition handle_notifications (client : BleakClient) : M unit :=
  distance_characteristic <- call (get_characteristic client DISTANCE_CHARACTERISTIC_UUID);;
  match distance_characteristic with
  | None => print "Distance characteristic not found."
  | Some distance_characteristic =>
      let measure_callback := notification_wrapper client in
      await (start_notify client distance_characteristic);;
      wait_for_disconnect measure_callback
  end.

Definition main : M unit :=
  client <- scan_and_connect default_service_uuid;;
  match client with
  | Some client =>
      try_finally
        (try_except
           (clear_device client;;
            call add_signal_handler_SIGINT;;
            handle_notifications client)
           (fun e => print ("Error: " ++ exc_str e)%string))
        (await (disconnect client))
  | None => ret tt
  end.

End Measure.

(* ===================================================================== *)
(** ** Observing a run *)
(* ===================================================================== *)

Module Observe.
Import PyFloat Runtime Measure.

(** What the log says. *)

Definition fn_eqb (f f' : fn) : bool :=
  match f, f' with
  | Fn_do_measure, Fn_do_measure | Fn_clear_device, Fn_clear_device => true
  | _, _ => false
  end.

Definition entered (f : fn) (e : event) : bool :=
  match e with
  | Enter f' => fn_eqb f f'
  | _ => false
  end.

(** How often a function of the script was invoked. *)
Definition invocations (f : fn) (t : list event) : nat :=
  length (List.filter (entered f) t).

(** The command lines handed to [subprocess.call], in order. *)
Definition subprocess_calls (t : list event) : list (list string) :=
  flat_map (fun e =>
    match e with
    | Call o => match o with subprocess_call args => [args] | _ => [] end
    | _ => []
    end) t.

(** The payloads written to a characteristic, in order. *)
Definition gatt_writes (t : list event) : list (list byte) :=
  flat_map (fun e =>
    match e with
    | Await o => match o with write_gatt_char _ _ data => [data] | _ => [] end
    | _ => []
    end) t.

(** The clients whose [disconnect()] was awaited, in order. *)
Definition disconnects (t : list event) : list BleakClient :=
  flat_map (fun e =>
    match e with
    | Await o => match o with disconnect c => [c] | _ => [] end
    | _ => []
    end) t.

(** The clients whose [connect()] was awaited, in order. *)
Definition connects (t : list event) : list BleakClient :=
  flat_map (fun e =>
    match e with
    | Await o => match o with connect c => [c] | _ => [] end
    | _ => []
    end) t.

(** Whether the handler took its "bad state" branch. *)
Definition bad_state (t : list event) : bool :=
  existsb (fun e =>
    match e with
    | Print line => String.eqb line "bad state"
    | _ => false
    end) t.

(** Log entries that [do_measure] and [clear_device] leave after their
    entry mark. *)
Definition device_io (e : event) : bool :=
  match e with
  | Print line => String.eqb line "Command characteristic not found."
  | Call o => match o with get_characteristic _ _ => true | _ => false end
  | Await o =>
      match o with
      | write_gatt_char _ _ _ | asyncio_sleep _ => true
      | _ => false
      end
  | Enter _ => false
  end.

Fixpoint starts_with (p s : string) : bool :=
  match p with
  | EmptyString => true
  | String a p' =>
      match s with
      | EmptyString => false
      | String b s' => Ascii.eqb a b && starts_with p' s'
      end
  end.

(** The report of [send_keys] and [send_enter] when [xdotool] could not
    be run. *)
Definition failure_report (e : event) : bool :=
  match e with
  | Print line => starts_with "failed to type " line
  | _ => false
  end.

Definition is_disconnect {R} (o : aop R) : bool :=
  match o with disconnect _ => true | _ => false end.

(** A computation that never awaits [disconnect()]. *)
Definition no_disconnect {A} (m : M A) : Prop :=
  forall w h g, disconnects (m w h g).2 = [].

(** What [struct.unpack] raises on a buffer of the wrong size. *)
Definition struct_error : BaseException :=
  Exc (mkException "struct.error" "unpack requires a buffer of 4 bytes").

(** The globals when the module has just been loaded. *)
Definition initial : globals := mkGlobals false 0 false.

(** The shape of the globals that the handler keeps from [initial] on:
    with the button flag clear the counter is 0, otherwise 0 or 1. *)
Definition reachable_shape (g : globals) : Prop :=
  if button_clicked g then 0 <= miss_counter g <= 1 else miss_counter g = 0.

(** One handler invocation, as seen from outside. *)
Record step : Type := mkStep {
  before : globals;
  payload : list byte;
  outcome : result unit;
  after : globals;
  log : list event
}.

Definition invoke (client : BleakClient) (w : env) (h : list event) (g : globals)
    (data : list byte) : step :=
  let '(r, g1, t1) := notification_wrapper client data w h g in
  mkStep g data r g1 t1.

(** The invocations of the handler on a sequence of notifications, one
    after the other as [dispatch] runs them. *)
Fixpoint run (client : BleakClient) (w : env) (h : list event) (g : globals)
    (notifications : list (list byte)) : list step :=
  match notifications with
  | [] => []
  | data :: rest =>
      let s := invoke client w h g data in
      s :: run client w (h ++ log s) (after s) rest
  end.

(** The globals after the last step, and the whole log. *)
Definition final (g : globals) (steps : list step) : globals :=
  List.last (map after steps) g.

Definition whole_log (steps : list step) : list event :=
  flat_map log steps.

(** *** Sample environments and inputs *)

Definition disto_command : BleakGATTCharacteristic :=
  mkCharacteristic "3ab10109-f831-4395-b29d-570977d5bf94" 20.

Definition disto_distance : BleakGATTCharacteristic :=
  mkCharacteristic "3ab10101-f831-4395-b29d-570977d5bf94" 17.

Definition disto : BLEDevice :=
  mkDevice "F0:5E:CD:00:00:01" (Some "DISTO 1234567")
    {[ "uuids" := ["3ab10100-f831-4395-b29d-570977d5bf94"] ]}.

(** The same device, its service UUID reported in upper case. *)
Definition disto_upper : BLEDevice :=
  mkDevice "F0:5E:CD:00:00:01" (Some "DISTO 1234567")
    {[ "uuids" := ["3AB10100-F831-4395-B29D-570977D5BF94"] ]}.

Definition disto_client : BleakClient := mkClient "F0:5E:CD:00:00:01".

(** Everything works: the scan sees [disto], both characteristics exist,
    every call succeeds, and one press-and-reading pair arrives before
    SIGINT. *)
Definition fair_weather : env :=
  mkEnv
    (fun R _ o =>
       match o in aop R return result R with
       | BleakScanner_discover => Returned [disto]
       | _ => Returned tt
       end)
    (fun R _ o =>
       match o in sop R return Exception + R with
       | BleakClient_new a => inr (mkClient a)
       | get_characteristic _ u =>
           inr (if String.eqb u COMMAND_CHARACTERISTIC_UUID
                then Some disto_command else Some disto_distance)
       | subprocess_call _ => inr 0
       | add_signal_handler_SIGINT => inr tt
       end)
    (fun _ => [[]; [x00; x00; x00; x3f]]).

(** As [fair_weather], but the scan reports the service UUID in upper
    case. *)
Definition upper_case_scan : env :=
  mkEnv
    (fun R h o =>
       match o in aop R return result R with
       | BleakScanner_discover => Returned [disto_upper]
       | o' => await_outcome fair_weather _ h o'
       end)
    (call_outcome fair_weather)
    (delivered fair_weather).

(** As [fair_weather], on a device without the command characteristic. *)
Definition no_command_characteristic : env :=
  mkEnv
    (await_outcome fair_weather)
    (fun R h o =>
       match o in sop R return Exception + R with
       | get_characteristic _ _ => inr None
       | o' => call_outcome fair_weather _ h o'
       end)
    (delivered fair_weather).

(** *** Further vocabulary for the log and the runs *)

(** What the handler types for a payload: the reading in millimetres. *)
Definition typed (data : list byte) : string :=
  format_1f (mul (decode_binary32 (le_uint data)) (of_int 1000)).

(** The two [xdotool] command lines that go with a reading. *)
Definition keystrokes (data : list byte) : list (list string) :=
  [ ["xdotool"; "type"; typed data]; ["xdotool"; "key"; "Return"] ].

(** The second, fourth, ... element of a list. *)
Fixpoint every_second {A} (l : list A) : list A :=
  match l with
  | _ :: x :: rest => x :: every_second rest
  | _ => []
  end.

(** The line the scan loop prints for a device. *)
Definition found_line (d : BLEDevice) : event :=
  Print ("Found device: " ++ address d ++ " - " ++ str_or_None (name d))%string.

(** The test of the scan loop on a device whose metadata has ["uuids"]. *)
Definition advertises (service_uuid : string) (d : BLEDevice) : Prop :=
  exists uuids, metadata d !! "uuids" = Some uuids /\ lower service_uuid ∈ uuids.

Definition passed_over (service_uuid : string) (d : BLEDevice) : Prop :=
  exists uuids, metadata d !! "uuids" = Some uuids /\ lower service_uuid ∉ uuids.

(** A computation that, started in globals satisfying [I], ends in
    globals satisfying [I] and logs only entries satisfying [P]. *)
Definition keeps (I : globals -> Prop) (P : event -> bool) {A} (m : M A) : Prop :=
  forall w h g, I g -> I (m w h g).1.2 /\ forallb P (m w h g).2 = true.

(** No condition on the globals. *)
Definition anything (g : globals) : Prop := True.

(** Log entries other than the entry mark of [clear_device]. *)
Definition not_clear_device (e : event) : bool := negb (entered Fn_clear_device e).

(** Log entries other than a characteristic write of something else than
    one of the three command bytes. *)
Definition command_byte (data : list byte) : bool :=
  match data with
  | [b] => match b with x6f | x67 | x70 => true | _ => false end
  | _ => false
  end.

Definition writes_commands_only (e : event) : bool :=
  match e with
  | Await o => match o with write_gatt_char _ _ data => command_byte data | _ => true end
  | _ => true
  end.

(** Log entries other than a subscription to notifications. *)
Definition not_start_notify (e : event) : bool :=
  match e with
  | Await o => match o with start_notify _ _ => false | _ => true end
  | _ => true
  end.

(** Log entries that are no traffic with the device or the keyboard:
    prints only. *)
Definition is_print (e : event) : bool :=
  match e with Print _ => true | _ => false end.

(** A device whose metadata has no ["uuids"] entry. *)
Definition bare_device : BLEDevice := mkDevice "00:11:22:33:44:55" None ∅.

(** As [fair_weather], but the scan reports [bare_device] ahead of
    [disto]. *)
Definition bare_device_first : env :=
  mkEnv
    (fun R h o =>
       match o in aop R return result R with
       | BleakScanner_discover => Returned [bare_device; disto]
       | o' => await_outcome fair_weather _ h o'
       end)
    (call_outcome fair_weather)
    (delivered fair_weather).

Definition BleakError : Exception := mkException "BleakError" "Not connected".

(** As [fair_weather], but every characteristic write fails. *)
Definition writes_fail : env :=
  mkEnv
    (fun R h o =>
       match o in aop R return result R with
       | write_gatt_char _ _ _ => Raised (Exc BleakError)
       | o' => await_outcome fair_weather _ h o'
       end)
    (call_outcome fair_weather)
    (delivered fair_weather).

(** As [fair_weather], but [disconnect()] fails. *)
Definition disconnect_fails : env :=
  mkEnv
    (fun R h o =>
       match o in aop R return result R with
       | disconnect _ => Raised (Exc BleakError)
       | o' => await_outcome fair_weather _ h o'
       end)
    (call_outcome fair_weather)
    (delivered fair_weather).

(** As [fair_weather], on a device without the distance characteristic. *)
Definition no_distance_characteristic : env :=
  mkEnv
    (await_outcome fair_weather)
    (fun R h o =>
       match o in sop R return Exception + R with
       | get_characteristic _ u =>
           inr (if String.eqb u COMMAND_CHARACTERISTIC_UUID
                then Some disto_command else None)
       | o' => call_outcome fair_weather _ h o'
       end)
    (delivered fair_weather).

End Observe.

(* ===================================================================== *)
(** ** Properties *)
(* ===================================================================== *)

Module Props.
Import PyFloat Runtime Measure Observe.

(** *** Proof steps shared below *)

(** Case analysis on how the environment answers the next outside call. *)
Ltac py_case :=
  match goal with
  | |- context [call_outcome ?w ?R ?h ?o] =>
      destruct (call_outcome w R h o) as [?|?] eqn:?
  | |- context [await_outcome ?w ?R ?h ?o] =>
      destruct (await_outcome w R h o) as [?|?] eqn:?
  | |- context [match ?x with Some _ => _ | None => _ end] => is_var x; destruct x
  end; cbn.

Ltac py_unfold :=
  unfold invoke, notification_wrapper, do_measure, clear_device, send_keys, send_enter,
    struct_unpack_f, with_counter_lock, button_clicked_is_set, button_clicked_set,
    button_clicked_clear, read_miss_counter, write_miss_counter,
    try_except, try_finally, bind, ret, raise, enter, call, await, print, get, put;
  cbn.

(** *** The monad *)

Lemma bind_ret_l {A B} (a : A) (k : A -> M B) w h g :
  bind (ret a) k w h g = k a w (h ++ []) g.
Proof. unfold bind, ret. now destruct (k a w (h ++ []) g) as [[r g1] t1]. Qed.

Lemma bind_ret_r {A} (m : M A) w h g : bind m ret w h g = m w h g.
Proof.
  unfold bind, ret. destruct (m w h g) as [[[a|e] g1] t1]; [|reflexivity].
  now rewrite app_nil_r.
Qed.

Lemma bind_assoc {A B C} (m : M A) (k : A -> M B) (k' : B -> M C) w h g :
  bind (bind m k) k' w h g = bind m (fun a => bind (k a) k') w h g.
Proof.
  unfold bind. destruct (m w h g) as [[[a|e] g1] t1]; [|reflexivity].
  destruct (k a w (h ++ t1) g1) as [[[b|e] g2] t2]; [|reflexivity].
  rewrite <- app_assoc.
  destruct (k' b w (h ++ t1 ++ t2) g2) as [[r g3] t3].
  now rewrite app_assoc.
Qed.

(** [finally] runs whether the body returns or raises. *)
Lemma try_finally_runs_final {A} (body : M A) final w h g :
  let '(_, g1, t1) := body w h g in
  let '(_, _, t2) := final w (h ++ t1) g1 in
  (try_finally body final w h g).2 = t1 ++ t2.
Proof.
  unfold try_finally. destruct (body w h g) as [[r g1] t1].
  now destruct (final w (h ++ t1) g1) as [[rf g2] t2].
Qed.

(** [except Exception] does not catch a cancellation. *)
Lemma try_except_passes_cancellation {A} (body : M A) handler w h g g1 t1 :
  body w h g = (Raised CancelledError, g1, t1) ->
  try_except body handler w h g = (Raised CancelledError, g1, t1).
Proof. intros E. unfold try_except. now rewrite E. Qed.

(** *** Reading the log *)

Lemma invocations_app f t1 t2 :
  invocations f (t1 ++ t2) = (invocations f t1 + invocations f t2)%nat.
Proof. unfold invocations. now rewrite List.filter_app, length_app. Qed.

Lemma subprocess_calls_app t1 t2 :
  subprocess_calls (t1 ++ t2) = subprocess_calls t1 ++ subprocess_calls t2.
Proof. apply flat_map_app. Qed.

Lemma disconnects_app t1 t2 : disconnects (t1 ++ t2) = disconnects t1 ++ disconnects t2.
Proof. apply flat_map_app. Qed.

Lemma connects_app t1 t2 : connects (t1 ++ t2) = connects t1 ++ connects t2.
Proof. apply flat_map_app. Qed.

Lemma bad_state_app t1 t2 : bad_state (t1 ++ t2) = bad_state t1 || bad_state t2.
Proof. apply existsb_app. Qed.

(** Device traffic holds no entry mark, no keystroke, no disconnect and
    no "bad state" line. *)
Lemma device_io_quiet t :
  forallb device_io t = true ->
  (forall f, invocations f t = 0%nat) /\ subprocess_calls t = []
  /\ disconnects t = [] /\ bad_state t = false.
Proof.
  induction t as [|e t IH]; cbn; [easy|].
  intros [He Ht]%andb_prop. destruct (IH Ht) as (Hi & Hs & Hd & Hb).
  unfold invocations in *. cbn.
  destruct e as [line| R o | R o | f]; cbn in He; try discriminate.
  - apply String.eqb_eq in He. subst line. cbn. auto.
  - destruct o; try discriminate; cbn; auto.
  - destruct o; try discriminate; cbn; auto.
Qed.

Lemma failure_report_not_bad_state line :
  starts_with "failed to type " line = true -> String.eqb line "bad state" = false.
Proof.
  destruct line as [|c rest]; [discriminate|].
  cbn [starts_with String.eqb].
  destruct (Ascii.eqb_spec "f" c) as [<-|]; [reflexivity|discriminate].
Qed.

(** So do the failure reports of the keystroke emitter. *)
Lemma failure_report_quiet t :
  forallb failure_report t = true ->
  (forall f, invocations f t = 0%nat) /\ subprocess_calls t = []
  /\ disconnects t = [] /\ bad_state t = false.
Proof.
  induction t as [|e t IH]; cbn; [easy|].
  intros [He Ht]%andb_prop. destruct (IH Ht) as (Hi & Hs & Hd & Hb).
  unfold invocations in *.
  destruct e as [line| R o | R o | f]; cbn in He; try discriminate.
  cbn. rewrite (failure_report_not_bad_state _ He). auto.
Qed.

(** *** What each function does *)

Lemma do_measure_spec client w h g :
  exists r t, do_measure client w h g = (r, g, Enter Fn_do_measure :: t)
              /\ forallb device_io t = true.
Proof. py_unfold. repeat py_case; eauto. Qed.

Lemma clear_device_spec client w h g :
  exists r t, clear_device client w h g = (r, g, Enter Fn_clear_device :: t)
              /\ forallb device_io t = true.
Proof. py_unfold. repeat py_case; eauto. Qed.

(** The four ways through the handler. *)

Lemma handler_press client data w h mc de :
  mc <= 0 ->
  exists r t,
    invoke client w h (mkGlobals false mc de) data
    = mkStep (mkGlobals false mc de) data r (mkGlobals true (mc + 1) de)
        ([Print "received event"; Enter Fn_do_measure] ++ t)
    /\ forallb device_io t = true.
Proof.
  intros Hmc. py_unfold.
  destruct (Z.ltb_spec 1 (mc + 1)); [lia|]. cbn.
  repeat py_case; eauto.
Qed.


Lemma handler_malformed client data w h mc de :
  length data <> 4%nat ->
  invoke client w h (mkGlobals true mc de) data
  = mkStep (mkGlobals true mc de) data (Raised struct_error)
      (mkGlobals true 0 de) [Print "received event"].
Proof.
  intros Hlen. py_unfold.
  destruct (Nat.eqb_spec (length data) 4); [contradiction|]. reflexivity.
Qed.

Lemma handler_reading client data w h mc de :
  length data = 4%nat ->
  let keys := format_1f (mul (decode_binary32 (le_uint data)) (of_int 1000)) in
  exists t1 t2,
    invoke client w h (mkGlobals true mc de) data
    = mkStep (mkGlobals true mc de) data (Returned tt) (mkGlobals false 0 de)
       ([Print "received event"; Print ("Distance: " ++ keys ++ " mm")%string;
         Call (subprocess_call ["xdotool"; "type"; keys])] ++ t1
         ++ [Call (subprocess_call ["xdotool"; "key"; "Return"])] ++ t2)
    /\ forallb failure_report t1 = true /\ forallb failure_report t2 = true.
Proof.
  intros Hlen keys. py_unfold. rewrite Hlen. cbn. fold keys.
  repeat py_case.
  - exists [Print ("failed to type " ++ exc_str e)%string],
           [Print ("failed to type " ++ exc_str e0)%string].
    repeat split; reflexivity.
  - exists [Print ("failed to type " ++ exc_str e)%string], [].
    repeat split; reflexivity.
  - exists [], [Print ("failed to type " ++ exc_str e)%string].
    repeat split; reflexivity.
  - exists [], []. repeat split; reflexivity.
Qed.




Lemma invoke_before client w h g data : before (invoke client w h g data) = g.
Proof. unfold invoke. now destruct (notification_wrapper _ _ _ _ _) as [[? ?] ?]. Qed.

Lemma invoke_payload client w h g data : payload (invoke client w h g data) = data.
Proof. unfold invoke. now destruct (notification_wrapper _ _ _ _ _) as [[? ?] ?]. Qed.

Lemma final_cons g s steps : final g (s :: steps) = final (after s) steps.
Proof.
  unfold final. cbn [map]. generalize (after s) as a, (map after steps) as l.
  clear. intros a l. revert a g.
  induction l as [|b l IH]; intros a g; [reflexivity|].
  change (List.last (a :: b :: l) g) with (List.last (b :: l) g).
  now rewrite !IH.
Qed.

(** [dispatch] performs the steps of [run], and never raises. *)
Lemma dispatch_run client notifications : forall w h g,
  dispatch (notification_wrapper client) notifications w h g
  = (Returned tt, final g (run client w h g notifications),
     whole_log (run client w h g notifications)).
Proof.
  induction notifications as [|data rest IH]; intros w h g; [reflexivity|].
  cbn [dispatch run]. unfold bind, task, invoke.
  destruct (notification_wrapper client data w h g) as [[r g1] t1].
  rewrite IH, final_cons. reflexivity.
Qed.

(** *** The arbiter: globals along a run *)



(** C10.  Along a run from the initial globals in which every
    notification that arrives with the button flag set carries 4 bytes,
    after each invocation of the handler: if the button flag is set, the
    counter is 1. *)
Theorem C10_awaiting_implies_counter_one client w h notifications :
  Forall (fun s => button_clicked (before s) = true -> length (payload s) = 4%nat)
    (run client w h initial notifications) ->
  Forall (fun s => button_clicked (after s) = true -> miss_counter (after s) = 1)
    (run client w h initial notifications).
Proof.
  assert (Hinit : miss_counter initial = if button_clicked initial then 1 else 0)
    by reflexivity.
  revert Hinit. generalize initial as g. revert h.
  induction notifications as [|data rest IH]; intros h g Hg Hwf; cbn [run] in *.
  - constructor.
  - apply Forall_cons_iff in Hwf as [Hdata Hrest].
    destruct g as [[] mc de]; cbn in Hg; subst mc.
    + rewrite invoke_before, invoke_payload in Hdata.
      specialize (Hdata eq_refl). rename Hdata into Hlen.
      destruct (handler_reading client data w h 1 de Hlen) as (t1 & t2 & E & _).
      rewrite E in *. constructor; [discriminate|]. now apply IH.
    + destruct (handler_press client data w h 0 de) as (r & t & E & _); [lia|].
      rewrite E in *. constructor; [reflexivity|]. now apply IH.
Qed.

Lemma C10_witness :
  let steps := run disto_client fair_weather [] initial [[]; [x00; x00; x00; x3f]; []] in
  Forall (fun s => button_clicked (before s) = true -> length (payload s) = 4%nat) steps
  /\ Forall (fun s => button_clicked (after s) = true -> miss_counter (after s) = 1) steps.
Proof.
  intros steps.
  assert (Hwf : Forall (fun s => button_clicked (before s) = true ->
                                 length (payload s) = 4%nat) steps).
  { subst steps. vm_compute run.
    repeat constructor; cbn; intros; congruence. }
  split; [exact Hwf|].
  exact (C10_awaiting_implies_counter_one disto_client fair_weather [] _ Hwf).
Defined.

(** *** The arbiter: single scenarios *)

(** C2, as the code has it.  A notification whose payload is not 4 bytes
    long, arriving with the button flag set: the handler ends with
    [struct.error] raised to the event loop, nothing has been typed, the
    counter is 0 and the button flag is still set.  The event loop goes on
    with the notifications that follow. *)
Theorem C2_malformed_payload_keeps_awaiting client w h g data :
  button_clicked g = true ->
  length data <> 4%nat ->
  let s := invoke client w h g data in
  outcome s = Raised struct_error
  /\ subprocess_calls (log s) = []
  /\ miss_counter (after s) = 0
  /\ button_clicked (after s) = true
  /\ forall rest,
       (dispatch (notification_wrapper client) (data :: rest) w h g).1.1 = Returned tt.
Proof.
  intros Hset Hlen s. subst s.
  destruct g as [bc mc de]; cbn in Hset. subst bc.
  rewrite (handler_malformed client data w h mc de Hlen).
  repeat split. intros rest. now rewrite dispatch_run.
Qed.

Lemma C2_witness :
  let s := invoke disto_client fair_weather [] (mkGlobals true 1 false) [x00; x3f] in
  outcome s = Raised struct_error /\ button_clicked (after s) = true
  /\ miss_counter (after s) = 0.
Proof.
  intros s.
  destruct (C2_malformed_payload_keeps_awaiting disto_client fair_weather []
              (mkGlobals true 1 false) [x00; x3f])
    as (H1 & _ & H3 & H4 & _); [reflexivity|cbn; lia|].
  split; [exact H1|]. split; [exact H4|exact H3].
Defined.

(** C2 as written fails: after a 2-byte payload that arrives with the
    button flag set, the flag is still set. *)
Lemma C2_counterexample :
  let g := mkGlobals true 1 false in
  let data := [x00; x3f] in
  button_clicked g = true /\ length data <> 4%nat /\
  button_clicked (after (invoke disto_client fair_weather [] g data)) <> false.
Proof. cbv zeta. split; [reflexivity|]. split; [cbn; lia|]. vm_compute. discriminate. Qed.

(** C3, evaluated.  Two notifications with an empty payload, from the
    initial globals: the first invokes [do_measure]; the second is taken
    for the reading and fails in [struct.unpack].  [clear_device] is not
    invoked, nothing is typed, and the run ends with the button flag set
    and the counter at 0. *)
Theorem C3_two_echoes_never_disarm client w h :
  let steps := run client w h initial [[]; []] in
  invocations Fn_clear_device (whole_log steps) = 0%nat
  /\ invocations Fn_do_measure (whole_log steps) = 1%nat
  /\ subprocess_calls (whole_log steps) = []
  /\ bad_state (whole_log steps) = false
  /\ (exists r, map outcome steps = [r; Raised struct_error])
  /\ final initial steps = mkGlobals true 0 false.
Proof.
  cbv zeta. cbn [run]. unfold initial.
  destruct (handler_press client [] w h 0 false) as (r & t & -> & Ht); [lia|].
  cbn [log after].
  rewrite handler_malformed by (cbn; lia).
  apply device_io_quiet in Ht. destruct Ht as (Hi & Hs & _ & Hb).
  unfold whole_log, final. cbn [flat_map map log after outcome List.last].
  rewrite !invocations_app, !subprocess_calls_app, !bad_state_app, !Hi, Hs, Hb.
  repeat split; try reflexivity. now exists r.
Qed.

(** C4.  A notification (whatever its payload) followed by one of 4 bytes,
    from the initial globals: [do_measure] is invoked once, [clear_device]
    never; [xdotool] is run twice, first to type the reading in
    millimetres with one decimal, then for the Return key; and the globals
    are back at their initial values. *)
Theorem C4_press_then_reading client w h echo reading :
  length reading = 4%nat ->
  let steps := run client w h initial [echo; reading] in
  invocations Fn_do_measure (whole_log steps) = 1%nat
  /\ invocations Fn_clear_device (whole_log steps) = 0%nat
  /\ subprocess_calls (whole_log steps)
     = [ ["xdotool"; "type";
          format_1f (mul (decode_binary32 (le_uint reading)) (of_int 1000))];
         ["xdotool"; "key"; "Return"] ]
  /\ final initial steps = initial.
Proof.
  intros Hlen. cbv zeta. cbn [run]. unfold initial.
  destruct (handler_press client echo w h 0 false) as (r & t & -> & Ht); [lia|].
  cbn [log after].
  destruct (handler_reading client reading w
              (h ++ [Print "received event"; Enter Fn_do_measure] ++ t) (0 + 1) false Hlen)
    as (t1 & t2 & -> & H1 & H2).
  apply device_io_quiet in Ht. destruct Ht as (Hi & Hs & _ & _).
  apply failure_report_quiet in H1, H2.
  destruct H1 as (Hi1 & Hs1 & _ & _), H2 as (Hi2 & Hs2 & _ & _).
  unfold whole_log, final. cbn [flat_map map log after List.last].
  rewrite !invocations_app, !subprocess_calls_app, !Hi, !Hi1, !Hi2, Hs, Hs1, Hs2.
  repeat split; reflexivity.
Qed.

(** The scenario of the specification: a press, then a reading of 0.5 m. *)
Lemma C4_witness :
  let steps := run disto_client fair_weather [] initial [[]; [x00; x00; x00; x3f]] in
  length [x00; x00; x00; x3f] = 4%nat
  /\ invocations Fn_do_measure (whole_log steps) = 1%nat
  /\ subprocess_calls (whole_log steps)
     = [ ["xdotool"; "type"; "500.0"]; ["xdotool"; "key"; "Return"] ]
  /\ final initial steps = initial.
Proof.
  intros steps. split; [reflexivity|].
  destruct (C4_press_then_reading disto_client fair_weather [] []
              [x00; x00; x00; x3f] eq_refl) as (H1 & _ & H3 & H4).
  split; [exact H1|]. split; [exact H3|exact H4].
Defined.

(** *** The device session *)

(** C8, as the code has it.  When the command characteristic is found and
    the first write and the aim delay complete, [do_measure] writes 0x6F,
    sleeps [AIM_DELAY] = 1.5 s, and writes 0x67, and does nothing else on
    the device.  When the characteristic is missing it reports so and
    writes nothing. *)
Theorem C8_do_measure_writes client w h g :
  let lookup := get_characteristic client COMMAND_CHARACTERISTIC_UUID in
  (forall char,
     let h1 := (h ++ [Enter Fn_do_measure]) ++ [Call lookup] in
     let laser_on := write_gatt_char client char [x6f] in
     call_outcome w _ (h ++ [Enter Fn_do_measure]) lookup = inr (Some char) ->
     await_outcome w _ h1 laser_on = Returned tt ->
     await_outcome w _ (h1 ++ [Await laser_on]) (asyncio_sleep AIM_DELAY) = Returned tt ->
     (do_measure client w h g).2
     = [Enter Fn_do_measure; Call lookup; Await laser_on;
        Await (asyncio_sleep AIM_DELAY); Await (write_gatt_char client char [x67])]
     /\ gatt_writes (do_measure client w h g).2 = [[x6f]; [x67]]
     /\ (AIM_DELAY == 3 # 2)%Q)
  /\ (call_outcome w _ (h ++ [Enter Fn_do_measure]) lookup = inr None ->
      (do_measure client w h g).2
      = [Enter Fn_do_measure; Call lookup; Print "Command characteristic not found."]
      /\ gatt_writes (do_measure client w h g).2 = []).
Proof.
  cbv zeta. split.
  - intros char Hlookup Hon Hsleep. py_unfold.
    rewrite Hlookup. cbn. rewrite Hon. cbn. rewrite Hsleep. cbn.
    repeat split; reflexivity.
  - intros Hlookup. py_unfold. rewrite Hlookup. cbn. split; reflexivity.
Qed.

Lemma C8_witness :
  gatt_writes (do_measure disto_client fair_weather [] initial).2 = [[x6f]; [x67]]
  /\ gatt_writes (do_measure disto_client no_command_characteristic [] initial).2 = [].
Proof.
  split.
  - exact (proj1 (proj2 (proj1 (C8_do_measure_writes disto_client fair_weather [] initial)
                           disto_command eq_refl eq_refl eq_refl))).
  - exact (proj2 (proj2 (C8_do_measure_writes disto_client no_command_characteristic
                           [] initial) eq_refl)).
Defined.

(** C8 as written fails: on a device without the command characteristic an
    invocation of [do_measure] writes nothing. *)
Lemma C8_counterexample :
  invocations Fn_do_measure (do_measure disto_client no_command_characteristic [] initial).2
  = 1%nat
  /\ gatt_writes (do_measure disto_client no_command_characteristic [] initial).2
     <> [[x6f]; [x67]].
Proof. split; [reflexivity|]. vm_compute. discriminate. Qed.

(** *** Floats: the product with 1000 and the rounding to tenths *)

(** A product that fits 53 bits and the exponent range is not rounded. *)
Lemma round_binary64_exact neg m e :
  0 < m < 2 ^ 53 -> -1074 <= e -> Z.log2 m + e < 1024 ->
  round_binary64 neg m e = Finite neg m e.
Proof.
  intros [Hpos Hm] He Hover. unfold round_binary64.
  destruct (Z.leb_spec m 0); [lia|].
  assert (Z.log2 m < 53) by (apply Z.log2_lt_pow2; lia).
  destruct (Z.leb_spec (Z.max (e + (Z.log2 m + 1) - 53) (-1074)) e); [|lia].
  destruct (Z.leb_spec 1024 (Z.log2 m + e)); [lia|reflexivity].
Qed.

(** A decoded binary32 has at most 24 significant bits and a small
    exponent. *)
Lemma decode_binary32_range w :
  match decode_binary32 w with
  | Finite _ m e => 0 <= m < 2 ^ 24 /\ -149 <= e <= 104
  | _ => True
  end.
Proof.
  unfold decode_binary32.
  assert (Hex : 0 <= Z.land (Z.shiftr w 23) 255 < 256).
  { change 255 with (Z.ones 8). rewrite Z.land_ones by lia.
    apply Z.mod_pos_bound. lia. }
  rewrite (Z.land_ones w 23) by lia.
  pose proof (Z.mod_pos_bound w (2 ^ 23) ltac:(lia)) as Hfrac.
  set (ex := Z.land (Z.shiftr w 23) 255) in *.
  set (frac := w mod 2 ^ 23) in *.
  destruct (Z.eqb_spec ex 255) as [|Hne]; [now destruct (frac =? 0)|].
  destruct (Z.eqb_spec ex 0) as [|Hnz]; [split; lia|].
  split; [|lia].
  assert (Hdisj : Z.land frac (Z.shiftl 1 23) = 0).
  { apply Z.bits_inj'. intros n Hn. rewrite Z.land_spec, Z.bits_0.
    rewrite Z.shiftl_1_l, Z.pow2_bits_eqb by lia.
    destruct (Z.eqb_spec 23 n) as [<-|]; [|apply andb_false_r].
    subst frac. rewrite Z.mod_pow2_bits_high by lia. reflexivity. }
  rewrite <- Z.lxor_lor, <- Z.add_nocarry_lxor by exact Hdisj.
  change (Z.shiftl 1 23) with (2 ^ 23). lia.
Qed.

(** [distance_meters * 1000] is exact for every decoded reading: no
    rounding takes place in binary64. *)
Lemma mul_1000_exact w :
  mul (decode_binary32 w) (of_int 1000)
  = match decode_binary32 w with
    | Finite neg m e => if m =? 0 then Finite neg 0 0 else Finite neg (m * 1000) e
    | other => other
    end.
Proof.
  pose proof (decode_binary32_range w) as Hr.
  change (of_int 1000) with (Finite false 1000 0).
  destruct (decode_binary32 w) as [|neg|neg m e]; cbn [mul].
  - reflexivity.
  - now rewrite xorb_false_r.
  - destruct Hr as [Hm He]. rewrite xorb_false_r, Z.add_0_r.
    destruct (Z.eqb_spec m 0) as [->|Hm0]; [reflexivity|].
    apply round_binary64_exact; try lia.
    assert (Z.log2 (m * 1000) < 34); [|lia].
    apply Z.log2_lt_pow2; lia.
Qed.

(** [round_half_even] is within one half of the value it rounds, and
    picks the even neighbour on a tie. *)
Lemma round_half_even_nearest n e :
  0 <= n -> e < 0 ->
  let d := 2 ^ (- e) in
  let q := round_half_even n e in
  2 * Z.abs (q * d - n) <= d /\ (2 * Z.abs (q * d - n) = d -> Z.even q = true).
Proof.
  intros Hn He d q. subst q. unfold round_half_even.
  destruct (Z.leb_spec 0 e); [lia|].
  rewrite Z.shiftl_1_l. fold d.
  assert (Hd : 0 < d) by (apply Z.pow_pos_nonneg; lia).
  pose proof (Z.div_mod n d ltac:(lia)) as Hdm.
  pose proof (Z.mod_pos_bound n d Hd) as Hr.
  set (k := n / d) in *. set (r := n mod d) in *.
  destruct (Z.ltb_spec d (2 * r)); cbn [orb].
  - split; [nia|]. intros; nia.
  - destruct (Z.eqb_spec (2 * r) d) as [Heq|Hneq]; cbn [andb].
    + destruct (Z.odd k) eqn:Hodd.
      * split; [nia|]. intros _. rewrite Z.even_add, <- Z.negb_odd, Hodd. reflexivity.
      * split; [nia|]. intros _. now rewrite <- Z.negb_odd, Hodd.
    + split; [nia|]. intros; nia.
Qed.

(** *** Floats: samples *)

Example format_half_metre :
  format_1f (mul (decode_binary32 (le_uint [x00; x00; x00; x3f])) (of_int 1000)) = "500.0".
Proof. reflexivity. Qed.

Example format_negative_zero :
  format_1f (mul (decode_binary32 (le_uint [x00; x00; x00; x80])) (of_int 1000)) = "-0.0".
Proof. reflexivity. Qed.

Example format_infinity :
  format_1f (mul (decode_binary32 (le_uint [x00; x00; x80; x7f])) (of_int 1000)) = "inf".
Proof. reflexivity. Qed.

Example format_smallest_subnormal :
  format_1f (mul (decode_binary32 (le_uint [x01; x00; x00; x00])) (of_int 1000)) = "0.0".
Proof. reflexivity. Qed.

Example format_largest_binary32 :
  format_1f (mul (decode_binary32 (le_uint [xff; xff; x7f; x7f])) (of_int 1000))
  = "340282346638528859811704183484516925440000.0".
Proof. vm_compute. reflexivity. Qed.

(** 1/32 m is 31.25 mm: a tie, rounded to the even tenth. *)
Example format_tie_to_even :
  format_1f (mul (decode_binary32 (le_uint [x00; x00; x00; x3d])) (of_int 1000)) = "31.2".
Proof. reflexivity. Qed.

(** 3/32 m is 93.75 mm: a tie, rounded to the even tenth. *)
Example format_tie_to_even_up :
  format_1f (mul (decode_binary32 (le_uint [x00; x00; xc0; x3d])) (of_int 1000)) = "93.8".
Proof. reflexivity. Qed.

(** *** Decoding and typing a reading *)

(** C7.  The bytes [19 04 9e 3f] are the binary32 nearest to 1.2345; its
    product with 1000 is exact in binary64; and the handler, entered with
    the button flag set, types ["1234.5"] and then presses Return. *)
Theorem C7_reading_typed_in_millimetres client w h mc de :
  let data := [x19; x04; x9e; x3f] in
  decode_binary32 (le_uint data) = Finite false 10355737 (-23)
  /\ 2 * Z.abs (10355737 * 10000 - 12345 * 2 ^ 23) <= 10000
  /\ mul (decode_binary32 (le_uint data)) (of_int 1000) = Finite false 10355737000 (-23)
  /\ format_1f (mul (decode_binary32 (le_uint data)) (of_int 1000)) = "1234.5"
  /\ subprocess_calls (log (invoke client w h (mkGlobals true mc de) data))
     = [ ["xdotool"; "type"; "1234.5"]; ["xdotool"; "key"; "Return"] ].
Proof.
  cbv zeta. repeat split; try (vm_compute; congruence).
  destruct (handler_reading client [x19; x04; x9e; x3f] w h mc de eq_refl)
    as (t1 & t2 & -> & H1 & H2).
  apply failure_report_quiet in H1, H2.
  destruct H1 as (_ & Hs1 & _ & _), H2 as (_ & Hs2 & _ & _).
  cbn [log]. rewrite !subprocess_calls_app, Hs1, Hs2. reflexivity.
Qed.

(** *** Discovery *)

Example upper_case_uuid_is_the_target :
  lower "3AB10100-F831-4395-B29D-570977D5BF94" = default_service_uuid
  /\ lower default_service_uuid = default_service_uuid.
Proof. split; reflexivity. Qed.

(** A device that lists the lower-cased target among its ["uuids"] is
    accepted; the devices after it are not looked at. *)
Lemma find_target_device_accepts service_uuid d rest uuids w h g :
  metadata d !! "uuids" = Some uuids ->
  lower service_uuid ∈ uuids ->
  (find_target_device service_uuid (d :: rest) w h g).1 = (Returned (Some d), g).
Proof.
  intros Hmeta Hin. cbn [find_target_device].
  unfold bind, print, subscript. cbn. rewrite Hmeta. unfold ret.
  rewrite bool_decide_eq_true_2 by exact Hin. reflexivity.
Qed.

(** A device that does not list it is passed over. *)
Lemma find_target_device_skips service_uuid d rest uuids w h g :
  metadata d !! "uuids" = Some uuids ->
  lower service_uuid ∉ uuids ->
  exists line,
    find_target_device service_uuid (d :: rest) w h g
    = let '(r, g', t) := find_target_device service_uuid rest w (h ++ [Print line]) g in
      (r, g', Print line :: t).
Proof.
  intros Hmeta Hin. cbn [find_target_device].
  unfold bind, print, subscript. cbn. rewrite Hmeta. unfold ret.
  rewrite bool_decide_eq_false_2 by exact Hin. cbn.
  exists ("Found device: " ++ address d ++ " - " ++ str_or_None (name d))%string.
  rewrite !app_nil_r.
  now destruct (find_target_device service_uuid rest w _ g) as [[r g'] t].
Qed.

(** When no scanned device lists the lower-cased target, the scan ends
    with [None] and no connection is attempted. *)
Lemma find_target_device_none service_uuid devices : forall w h g,
  Forall (fun d => exists uuids,
            metadata d !! "uuids" = Some uuids /\ lower service_uuid ∉ uuids) devices ->
  exists t, find_target_device service_uuid devices w h g = (Returned None, g, t)
            /\ connects t = [].
Proof.
  induction devices as [|d rest IH]; intros w h g Hall.
  - exists []. split; reflexivity.
  - apply Forall_cons_iff in Hall as [(uuids & Hmeta & Hin) Hrest].
    destruct (find_target_device_skips service_uuid d rest uuids w h g Hmeta Hin)
      as (line & ->).
    destruct (IH w (h ++ [Print line]) g Hrest) as (t & -> & Ht).
    exists (Print line :: t). split; [reflexivity|exact Ht].
Qed.

Lemma scan_and_connect_not_found service_uuid w h g devices :
  await_outcome w _
    (h ++ [Print ("Scanning for devices with service UUID: " ++ service_uuid)%string])
    BleakScanner_discover = Returned devices ->
  Forall (fun d => exists uuids,
            metadata d !! "uuids" = Some uuids /\ lower service_uuid ∉ uuids) devices ->
  exists t, scan_and_connect service_uuid w h g = (Returned None, g, t)
            /\ connects t = [].
Proof.
  intros Hscan Hall. unfold scan_and_connect, try_except, bind, print, await. cbn.
  rewrite Hscan.
  match goal with
  | |- context [find_target_device service_uuid devices w ?h' g] =>
      destruct (find_target_device_none service_uuid devices w h' g Hall) as (t & -> & Ht)
  end.
  cbn. eexists. split; [reflexivity|].
  cbn. rewrite !connects_app, Ht. reflexivity.
Qed.

(** C6, evaluated.  The scan reports one device, which advertises the
    target service UUID in upper case.  [scan_and_connect] lower-cases the
    target only, does not find it in the device's list, and returns [None]
    without connecting. *)
Theorem C6_upper_case_uuid_not_matched w h g :
  await_outcome w _
    (h ++ [Print "Scanning for devices with service UUID: 3ab10100-f831-4395-b29d-570977d5bf94"])
    BleakScanner_discover = Returned [disto_upper] ->
  scan_and_connect default_service_uuid w h g
  = (Returned None, g,
     [Print "Scanning for devices with service UUID: 3ab10100-f831-4395-b29d-570977d5bf94";
      Await BleakScanner_discover;
      Print "Found device: F0:5E:CD:00:00:01 - DISTO 1234567";
      Print "Target device not found."]).
Proof.
  intros Hscan. unfold scan_and_connect, try_except, bind, print, await. cbn.
  change ("Scanning for devices with service UUID: " ++ default_service_uuid)%string
    with "Scanning for devices with service UUID: 3ab10100-f831-4395-b29d-570977d5bf94".
  rewrite Hscan. vm_compute. reflexivity.
Qed.

Lemma C6_witness :
  (scan_and_connect default_service_uuid upper_case_scan [] initial).1
  = (Returned None, initial).
Proof.
  now rewrite (C6_upper_case_uuid_not_matched upper_case_scan [] initial eq_refl).
Defined.

(** *** The session: [disconnect()] *)

(** [no_disconnect] is kept by the combinators of the monad. *)

Lemma no_disconnect_ret {A} (a : A) : no_disconnect (ret a).
Proof. easy. Qed.

Lemma no_disconnect_raise {A} e : no_disconnect (@raise A e).
Proof. easy. Qed.

Lemma no_disconnect_print line : no_disconnect (print line).
Proof. easy. Qed.

Lemma no_disconnect_enter f : no_disconnect (enter f).
Proof. easy. Qed.

Lemma no_disconnect_get : no_disconnect get.
Proof. easy. Qed.

Lemma no_disconnect_put g : no_disconnect (put g).
Proof. easy. Qed.

Lemma no_disconnect_pending : no_disconnect pending_notifications.
Proof. easy. Qed.

Lemma no_disconnect_call {R} (o : sop R) : no_disconnect (call o).
Proof. easy. Qed.

Lemma no_disconnect_await {R} (o : aop R) :
  is_disconnect o = false -> no_disconnect (await o).
Proof. intros Ho w h g. cbn. now destruct o. Qed.

Lemma no_disconnect_bind {A B} (m : M A) (k : A -> M B) :
  no_disconnect m -> (forall a, no_disconnect (k a)) -> no_disconnect (bind m k).
Proof.
  intros Hm Hk w h g. unfold bind. specialize (Hm w h g).
  destruct (m w h g) as [[[a|e] g1] t1]; cbn [fst snd] in *; [|exact Hm].
  specialize (Hk a w (h ++ t1) g1).
  destruct (k a w (h ++ t1) g1) as [[r g2] t2]; cbn [fst snd] in *.
  now rewrite disconnects_app, Hm, Hk.
Qed.

Lemma no_disconnect_try_except {A} (body : M A) handler :
  no_disconnect body -> (forall e, no_disconnect (handler e)) ->
  no_disconnect (try_except body handler).
Proof.
  intros Hm Hk w h g. unfold try_except. specialize (Hm w h g).
  destruct (body w h g) as [[[a|[e| |]] g1] t1]; cbn [fst snd] in *; try exact Hm.
  specialize (Hk e w (h ++ t1) g1).
  destruct (handler e w (h ++ t1) g1) as [[r g2] t2]; cbn [fst snd] in *.
  now rewrite disconnects_app, Hm, Hk.
Qed.

Lemma no_disconnect_task (body : M unit) : no_disconnect body -> no_disconnect (task body).
Proof.
  intros Hm w h g. unfold task. specialize (Hm w h g).
  now destruct (body w h g) as [[r g1] t1].
Qed.

Create HintDb quiet.
#[local] Hint Resolve no_disconnect_ret no_disconnect_raise no_disconnect_print
  no_disconnect_enter no_disconnect_get no_disconnect_put no_disconnect_pending
  no_disconnect_call no_disconnect_task : quiet.

(** Break a computation down to calls the hints settle. *)
Ltac quiet :=
  repeat first
    [ progress intros
    | solve [auto with quiet]
    | apply no_disconnect_await; reflexivity
    | apply no_disconnect_bind
    | apply no_disconnect_try_except
    | match goal with
      | |- no_disconnect (match ?x with _ => _ end) => destruct x
      | |- no_disconnect (if ?x then _ else _) => destruct x
      end ].

Lemma no_disconnect_clear_device client : no_disconnect (clear_device client).
Proof. unfold clear_device. quiet. Qed.

Lemma no_disconnect_do_measure client : no_disconnect (do_measure client).
Proof. unfold do_measure. quiet. Qed.

Lemma no_disconnect_handler client data : no_disconnect (notification_wrapper client data).
Proof.
  pose proof (no_disconnect_clear_device client).
  pose proof (no_disconnect_do_measure client).
  unfold notification_wrapper, with_counter_lock, button_clicked_is_set,
    button_clicked_set, button_clicked_clear, read_miss_counter, write_miss_counter,
    struct_unpack_f, send_keys, send_enter.
  quiet.
Qed.

Lemma no_disconnect_dispatch client notifications :
  no_disconnect (dispatch (notification_wrapper client) notifications).
Proof.
  pose proof (no_disconnect_handler client).
  induction notifications; cbn [dispatch]; quiet.
Qed.

Lemma no_disconnect_handle_notifications client :
  no_disconnect (handle_notifications client).
Proof.
  pose proof (no_disconnect_dispatch client).
  unfold handle_notifications, wait_for_disconnect, handle_keyboard_interrupt. quiet.
Qed.

Lemma no_disconnect_find_target service_uuid devices :
  no_disconnect (find_target_device service_uuid devices).
Proof.
  induction devices; cbn [find_target_device]; unfold subscript; quiet.
Qed.

Lemma no_disconnect_scan service_uuid : no_disconnect (scan_and_connect service_uuid).
Proof.
  pose proof (no_disconnect_find_target service_uuid).
  unfold scan_and_connect. quiet.
Qed.

(** C9.  Once [scan_and_connect] has returned a client, [main] awaits
    [disconnect()] on that client exactly once, however the calls made in
    between end: normally, with an exception, or cancelled. *)
Theorem C9_disconnect_exactly_once w h g client g1 t1 :
  scan_and_connect default_service_uuid w h g = (Returned (Some client), g1, t1) ->
  disconnects (main w h g).2 = [client].
Proof.
  intros Hscan. unfold main. unfold bind at 1. rewrite Hscan.
  pose proof (no_disconnect_scan default_service_uuid w h g) as Ht1.
  rewrite Hscan in Ht1. cbn [fst snd] in Ht1.
  unfold try_finally.
  match goal with
  | |- context [try_except ?body ?handler w ?h' g1] =>
      assert (Hbody : no_disconnect (try_except body handler));
      [|specialize (Hbody w h' g1);
        destruct (try_except body handler w h' g1) as [[r g2] t2]]
  end.
  { pose proof (no_disconnect_clear_device client).
    pose proof (no_disconnect_handle_notifications client). quiet. }
  unfold await. cbn [fst snd] in Hbody |- *.
  now rewrite !disconnects_app, Ht1, Hbody.
Qed.

Lemma C9_witness :
  (scan_and_connect default_service_uuid fair_weather [] initial).1.1
  = Returned (Some disto_client)
  /\ disconnects (main fair_weather [] initial).2 = [disto_client].
Proof.
  split; [reflexivity|].
  eapply (C9_disconnect_exactly_once fair_weather [] initial disto_client).
  vm_compute. reflexivity.
Defined.

(** Without a client there is nothing to disconnect. *)
Lemma main_without_client w h g r g1 t1 :
  scan_and_connect default_service_uuid w h g = (r, g1, t1) ->
  (forall c, r <> Returned (Some c)) ->
  disconnects (main w h g).2 = [].
Proof.
  intros Hscan Hnone. unfold main. unfold bind at 1.
  pose proof (no_disconnect_scan default_service_uuid w h g) as Ht1.
  rewrite Hscan in *. cbn [fst snd] in Ht1.
  destruct r as [[c|]|e]; cbn [fst snd]; [now destruct (Hnone c)| |exact Ht1].
  unfold ret. cbn [fst snd]. now rewrite app_nil_r.
Qed.

(** *** A whole session *)

Example fair_weather_session :
  let '(r, g, t) := main fair_weather [] initial in
  r = Returned tt
  /\ g = mkGlobals false 0 true
  /\ gatt_writes t = [[x70]; [x6f]; [x67]]
  /\ subprocess_calls t = [["xdotool"; "type"; "500.0"]; ["xdotool"; "key"; "Return"]]
  /\ connects t = [disto_client]
  /\ disconnects t = [disto_client].
Proof. vm_compute. repeat split; reflexivity. Qed.

End Props.

(* ===================================================================== *)
(** ** Further properties of the script *)
(* ===================================================================== *)

Module More.
Import PyFloat Runtime Measure Observe Props.

(** *** The keystroke emitter *)

(** [send_keys] and [send_enter] are best effort: whatever becomes of the
    [xdotool] call, each runs it exactly once, returns normally, and leaves
    the globals alone; a failure is only reported. *)
Theorem keystroke_emitter_never_raises keys w h g :
  (exists t,
     send_keys keys w h g
     = (Returned tt, g, [Call (subprocess_call ["xdotool"; "type"; keys])] ++ t)
     /\ forallb failure_report t = true)
  /\ (exists t,
        send_enter w h g
        = (Returned tt, g, [Call (subprocess_call ["xdotool"; "key"; "Return"])] ++ t)
        /\ forallb failure_report t = true).
Proof.
  split; py_unfold; py_case;
    first [ by exists [] | eexists [Print _]; split; reflexivity ].
Qed.

(** *** The device commands *)

(** [clear_device] leaves the globals alone and writes at most one thing:
    the byte 0x70, exactly when the command characteristic is found; when
    it is missing the function returns normally, having written nothing. *)
Theorem clear_device_writes_laser_off client w h g :
  let lookup :=
    call_outcome w _ (h ++ [Enter Fn_clear_device])
      (get_characteristic client COMMAND_CHARACTERISTIC_UUID) in
  let '(r, g', t) := clear_device client w h g in
  g' = g
  /\ gatt_writes t = match lookup with inr (Some _) => [[x70]] | _ => [] end
  /\ (lookup = inr None -> r = Returned tt).
Proof.
  cbv zeta. py_unfold.
  destruct (call_outcome w _ _ _) as [e|[char|]]; cbn.
  - repeat split. discriminate.
  - destruct (await_outcome w _ _ _); cbn; repeat split; discriminate.
  - repeat split.
Qed.

(** [do_measure] leaves the globals alone, never writes anything but 0x6F
    followed by 0x67, and writes 0x67 only when the laser-on write and the
    whole aim delay before it have completed. *)
Theorem do_measure_never_measures_unaimed client w h g :
  let '(r, g', t) := do_measure client w h g in
  g' = g
  /\ (gatt_writes t = [] \/ gatt_writes t = [[x6f]] \/ gatt_writes t = [[x6f]; [x67]])
  /\ (In [x67] (gatt_writes t) ->
      exists char,
        let laser_on := write_gatt_char client char [x6f] in
        let h1 := (h ++ [Enter Fn_do_measure])
                    ++ [Call (get_characteristic client COMMAND_CHARACTERISTIC_UUID)] in
        await_outcome w _ h1 laser_on = Returned tt
        /\ await_outcome w _ (h1 ++ [Await laser_on]) (asyncio_sleep AIM_DELAY) = Returned tt
        /\ t = [Enter Fn_do_measure;
                Call (get_characteristic client COMMAND_CHARACTERISTIC_UUID);
                Await laser_on; Await (asyncio_sleep AIM_DELAY);
                Await (write_gatt_char client char [x67])]).
Proof.
  py_unfold.
  destruct (call_outcome w _ _ _) as [e|[char|]]; cbn.
  - repeat split; [auto|]. intros [].
  - destruct (await_outcome w () _ (write_gatt_char client char [x6f])) as [[]|e] eqn:Hon; cbn.
    + destruct (await_outcome w () _ (asyncio_sleep AIM_DELAY)) as [[]|e] eqn:Hsleep; cbn.
      * repeat split; [auto|]. intros _. exists char. cbv zeta. repeat split; assumption.
      * repeat split; [auto|]. intros [H|[]]. discriminate.
    + repeat split; [auto|]. intros [H|[]]. discriminate.
  - repeat split; [auto|]. intros [].
Qed.

(** *** Discovery and connection *)

(** The scan loop changes no global, logs prints only, and ends in one of
    three ways: no device, a device of the list that advertises the
    target, or [KeyError] for a device without ["uuids"]. *)
Lemma find_target_device_outcome service_uuid devices : forall w h g,
  exists r t,
    find_target_device service_uuid devices w h g = (r, g, t)
    /\ forallb is_print t = true
    /\ (r = Returned None
        \/ (exists d, r = Returned (Some d) /\ In d devices /\ advertises service_uuid d)
        \/ r = Raised (Exc (mkException "KeyError" "'uuids'"))).
Proof.
  induction devices as [|d rest IH]; intros w h g.
  - exists (Returned None), []. repeat split. now left.
  - cbn [find_target_device]. unfold bind, print, subscript. cbn.
    destruct (metadata d !! "uuids") as [uuids|] eqn:Hmeta; cbn.
    + unfold ret. destruct (bool_decide (lower service_uuid ∈ uuids)) eqn:Hin; cbn.
      * apply bool_decide_eq_true_1 in Hin.
        eexists _, _. split; [reflexivity|]. split; [reflexivity|].
        right; left. exists d. repeat split; [now left|]. now exists uuids.
      * destruct (IH w ((h ++ [found_line d]) ++ []) g) as (r & t & E & Ht & Hr).
        unfold found_line in E. rewrite E. cbn.
        exists r, (found_line d :: t). split; [reflexivity|]. split; [exact Ht|].
        destruct Hr as [->|[(d' & -> & Hd' & Hadv)| ->]]; auto.
        right; left. exists d'. repeat split; [now right|exact Hadv].
    + unfold raise. cbn. eexists _, _. split; [reflexivity|]. split; [reflexivity|].
      now right; right.
Qed.

(** How [scan_and_connect] can end. *)
Lemma scan_and_connect_result service_uuid w h g :
  let '(r, g', t) := scan_and_connect service_uuid w h g in
  g' = g
  /\ (r = Returned None \/ (exists client, r = Returned (Some client))
      \/ r = Raised CancelledError \/ r = Raised KeyboardInterrupt).
Proof.
  unfold scan_and_connect, try_except. unfold bind at 1. unfold print at 1. cbn.
  unfold bind at 1. unfold await at 1. cbn.
  destruct (await_outcome w _ _ BleakScanner_discover) as [devices|[e| |]]; cbn;
    try (split; [reflexivity|tauto]).
  unfold bind at 1.
  match goal with
  | |- context [find_target_device service_uuid devices w ?h' g] =>
      destruct (find_target_device_outcome service_uuid devices w h' g)
        as (r & t & -> & _ & Hr)
  end.
  destruct Hr as [->|[(d & -> & _)| ->]]; cbn; try (split; [reflexivity|tauto]).
  py_unfold. repeat py_case; try (split; [reflexivity|eauto]).
  all: destruct e; cbn; (split; [reflexivity|tauto]).
Qed.

(** [scan_and_connect] never lets an [Exception] out and leaves the
    globals alone: it returns a client or [None], or is cancelled. *)
Theorem scan_and_connect_contains_exceptions service_uuid w h g :
  let '(r, g', t) := scan_and_connect service_uuid w h g in
  g' = g /\ forall e, r <> Raised (Exc e).
Proof.
  pose proof (scan_and_connect_result service_uuid w h g) as H.
  destruct (scan_and_connect service_uuid w h g) as [[r g'] t].
  destruct H as [Hg Hr]. split; [exact Hg|]. intros e.
  destruct Hr as [->|[[client ->]|[->| ->]]]; discriminate.
Qed.

(** A client comes back only from a successful [connect()]: the scan saw
    a device advertising the lower-cased target, a client was made for its
    address, and [connect()] on that very client was awaited, once, and
    returned. *)
Theorem scan_and_connect_client_is_connected service_uuid w h g client g' t :
  scan_and_connect service_uuid w h g = (Returned (Some client), g', t) ->
  exists devices d found,
    In d devices /\ advertises service_uuid d
    /\ forallb is_print found = true
    /\ t = [Print ("Scanning for devices with service UUID: " ++ service_uuid)%string;
            Await BleakScanner_discover]
           ++ found
           ++ [Print ("Connecting to " ++ str_or_None (name d) ++ "...")%string;
               Call (BleakClient_new (address d));
               Await (connect client);
               Print "Connected!"]
    /\ connects t = [client]
    /\ await_outcome w _
         (h ++ [Print ("Scanning for devices with service UUID: " ++ service_uuid)%string])
         BleakScanner_discover = Returned devices.
Proof.
  unfold scan_and_connect, try_except. unfold bind at 1. unfold print at 1. cbn.
  unfold bind at 1. unfold await at 1. cbn.
  destruct (await_outcome w _ _ BleakScanner_discover) as [devices|[e| |]] eqn:Hscan; cbn;
    try discriminate.
  unfold bind at 1.
  match goal with
  | |- context [find_target_device service_uuid devices w ?h' g] =>
      destruct (find_target_device_outcome service_uuid devices w h' g)
        as (r & found & -> & Hfound & Hr)
  end.
  destruct Hr as [->|[(d & -> & Hin & Hadv)| ->]]; cbn; try discriminate.
  py_unfold. repeat py_case; try discriminate;
    try (match goal with e : BaseException |- _ => destruct e; discriminate end).
  intros [= <- <- <-].
  exists devices, d, found. repeat split; try assumption.
  assert (Hc : connects found = []).
  { clear -Hfound. induction found as [|[] found IH]; cbn in *; try discriminate; auto. }
  change (connects ([Print ("Scanning for devices with service UUID: " ++ service_uuid)%string;
                     Await BleakScanner_discover] ++ found
                    ++ [Print ("Connecting to " ++ str_or_None (name d) ++ "...")%string;
                        Call (BleakClient_new (address d)); Await (connect b);
                        Print "Connected!"]) = [b]).
  now rewrite !connects_app, Hc.
Qed.

Lemma scan_and_connect_client_is_connected_witness :
  (scan_and_connect default_service_uuid fair_weather [] initial).1.1
  = Returned (Some disto_client)
  /\ connects (scan_and_connect default_service_uuid fair_weather [] initial).2
     = [disto_client].
Proof.
  split; [reflexivity|].
  destruct (scan_and_connect_client_is_connected default_service_uuid fair_weather []
              initial disto_client initial
              (scan_and_connect default_service_uuid fair_weather [] initial).2 eq_refl)
    as (devices & d & found & _ & _ & _ & _ & Hc & _).
  exact Hc.
Defined.

(** Devices that are passed over cost one printed line each. *)
Lemma find_target_device_skip_prefix service_uuid pre rest : forall w h g,
  Forall (passed_over service_uuid) pre ->
  find_target_device service_uuid (pre ++ rest) w h g
  = let '(r, g', t) :=
      find_target_device service_uuid rest w (h ++ map found_line pre) g in
    (r, g', map found_line pre ++ t).
Proof.
  induction pre as [|d pre IH]; intros w h g Hall.
  - cbn. rewrite app_nil_r. now destruct (find_target_device _ _ _ _ _) as [[? ?] ?].
  - apply Forall_cons_iff in Hall as [(uuids & Hmeta & Hin) Hpre].
    cbn [app find_target_device map]. unfold bind at 1. unfold print at 1. cbn.
    unfold bind at 1. unfold subscript. rewrite Hmeta. unfold ret at 1. cbn.
    rewrite bool_decide_eq_false_2 by exact Hin.
    rewrite !app_nil_r. rewrite (IH w _ g Hpre). fold (found_line d).
    rewrite <- app_assoc. cbn.
    now destruct (find_target_device _ _ _ _ _) as [[? ?] ?].
Qed.

(** The first device of the list that advertises the lower-cased target is
    the one chosen, and the devices after it are not even looked at: the
    loop prints one line per device up to and including the chosen one. *)
Theorem find_target_device_first_match service_uuid pre d post w h g :
  Forall (passed_over service_uuid) pre ->
  advertises service_uuid d ->
  find_target_device service_uuid (pre ++ d :: post) w h g
  = (Returned (Some d), g, map found_line (pre ++ [d])).
Proof.
  intros Hpre (uuids & Hmeta & Hin).
  rewrite (find_target_device_skip_prefix service_uuid pre (d :: post) w h g Hpre).
  cbn [find_target_device]. unfold bind, print, subscript. cbn.
  rewrite Hmeta. unfold ret. cbn.
  rewrite bool_decide_eq_true_2 by exact Hin. cbn.
  now rewrite map_app.
Qed.

Lemma find_target_device_first_match_witness :
  find_target_device default_service_uuid [disto_upper; disto; bare_device]
    fair_weather [] initial
  = (Returned (Some disto), initial, [found_line disto_upper; found_line disto]).
Proof.
  apply (find_target_device_first_match default_service_uuid [disto_upper] disto
           [bare_device] fair_weather [] initial).
  - repeat constructor. eexists. split; [reflexivity|]. vm_compute.
    intros H. apply list_elem_of_In in H. destruct H as [H|[]]. discriminate.
  - eexists. split; [reflexivity|]. apply list_elem_of_In. left. reflexivity.
Defined.

(** A device without ["uuids"] in its metadata, met before any match,
    ends the scan: the [KeyError] is caught, the error is printed, and
    [None] comes back without any connection, whatever devices follow. *)
Theorem scan_and_connect_missing_uuids service_uuid pre d post w h g :
  await_outcome w _
    (h ++ [Print ("Scanning for devices with service UUID: " ++ service_uuid)%string])
    BleakScanner_discover = Returned (pre ++ d :: post) ->
  Forall (passed_over service_uuid) pre ->
  metadata d !! "uuids" = None ->
  scan_and_connect service_uuid w h g
  = (Returned None, g,
     [Print ("Scanning for devices with service UUID: " ++ service_uuid)%string;
      Await BleakScanner_discover]
     ++ map found_line (pre ++ [d])
     ++ [Print "Error scanning or connecting: 'uuids'"]).
Proof.
  intros Hscan Hpre Hmeta.
  unfold scan_and_connect, try_except. unfold bind at 1. unfold print at 1. cbn.
  unfold bind at 1. unfold await at 1. cbn. rewrite Hscan.
  unfold bind at 1.
  rewrite (find_target_device_skip_prefix service_uuid pre (d :: post) w _ g Hpre).
  cbn [find_target_device]. unfold bind at 1. unfold print at 1. cbn.
  unfold bind at 1. unfold subscript. rewrite Hmeta. unfold raise. cbn.
  unfold bind, print, ret. cbn.
  rewrite map_app. cbn. now rewrite <- !app_assoc.
Qed.

Lemma scan_and_connect_missing_uuids_witness :
  (scan_and_connect default_service_uuid bare_device_first [] initial).1
  = (Returned None, initial)
  /\ connects (scan_and_connect default_service_uuid bare_device_first [] initial).2 = [].
Proof.
  rewrite (scan_and_connect_missing_uuids default_service_uuid [] bare_device [disto]
             bare_device_first [] initial eq_refl (List.Forall_nil _) eq_refl).
  split; reflexivity.
Defined.

(** The comparison is blind to the letter case of the target: two targets
    with the same lower-case form select the same device. *)
Theorem find_target_device_target_case service_uuid service_uuid' devices w h g :
  lower service_uuid = lower service_uuid' ->
  find_target_device service_uuid devices w h g
  = find_target_device service_uuid' devices w h g.
Proof.
  intros Hlow. revert h. induction devices as [|d rest IH]; intros h; [reflexivity|].
  cbn [find_target_device]. unfold bind, print, subscript. cbn.
  destruct (metadata d !! "uuids") as [uuids|]; [|reflexivity].
  unfold ret. cbn. rewrite Hlow.
  destruct (bool_decide _); [reflexivity|]. cbn. now rewrite IH.
Qed.

Lemma find_target_device_target_case_witness :
  find_target_device "3AB10100-F831-4395-B29D-570977D5BF94" [disto] fair_weather [] initial
  = (Returned (Some disto), initial, [found_line disto]).
Proof.
  now rewrite (find_target_device_target_case "3AB10100-F831-4395-B29D-570977D5BF94"
                 default_service_uuid [disto] fair_weather [] initial eq_refl).
Defined.

(** *** The arbiter, further *)

Lemma gatt_writes_app t1 t2 : gatt_writes (t1 ++ t2) = gatt_writes t1 ++ gatt_writes t2.
Proof. apply flat_map_app. Qed.

Lemma failure_report_no_write t : forallb failure_report t = true -> gatt_writes t = [].
Proof.
  induction t as [|[] t IH]; cbn; try discriminate; [reflexivity|].
  intros [_ Ht]%andb_prop. auto.
Qed.

Lemma whole_log_cons s steps : whole_log (s :: steps) = log s ++ whole_log steps.
Proof. reflexivity. Qed.

Lemma run_app client w l1 l2 : forall h g,
  run client w h g (l1 ++ l2)
  = run client w h g l1
    ++ run client w (h ++ whole_log (run client w h g l1))
         (final g (run client w h g l1)) l2.
Proof.
  induction l1 as [|data l1 IH]; intros h g.
  - cbn. now rewrite app_nil_r.
  - cbn [app run]. rewrite IH, whole_log_cons, final_cons, app_assoc. reflexivity.
Qed.

Lemma whole_log_app s1 s2 : whole_log (s1 ++ s2) = whole_log s1 ++ whole_log s2.
Proof. apply flat_map_app. Qed.

Lemma final_app g s1 s2 : final g (s1 ++ s2) = final (final g s1) s2.
Proof.
  revert g. induction s1 as [|s s1 IH]; intros g; [reflexivity|].
  cbn [app]. now rewrite !final_cons, IH.
Qed.

(** Which branch the handler takes is settled by the button flag alone.
    With the flag set, an invocation sends nothing to the device and
    invokes neither [do_measure] nor [clear_device]; with the flag clear
    it types nothing and does not look at the payload at all.  In no case
    does it touch [disconnect_event]. *)
Theorem handler_branch_by_flag_alone client w h g data :
  let s := invoke client w h g data in
  disconnect_event (after s) = disconnect_event g
  /\ (if button_clicked g
      then gatt_writes (log s) = [] /\ forall f, invocations f (log s) = 0%nat
      else subprocess_calls (log s) = []
           /\ forall data',
                let s' := invoke client w h g data' in
                outcome s' = outcome s /\ after s' = after s /\ log s' = log s).
Proof.
  destruct g as [[] mc de]; cbv zeta; cbn [button_clicked disconnect_event].
  - destruct (Nat.eq_dec (length data) 4%nat) as [Hlen|Hlen].
    + destruct (handler_reading client data w h mc de Hlen) as (t1 & t2 & -> & H1 & H2).
      cbn [after log disconnect_event].
      pose proof (failure_report_no_write _ H1) as W1.
      pose proof (failure_report_no_write _ H2) as W2.
      apply failure_report_quiet in H1, H2.
      destruct H1 as (I1 & _), H2 as (I2 & _).
      repeat split.
      * now rewrite !gatt_writes_app, W1, W2.
      * intros f. rewrite !invocations_app, I1, I2. now destruct f.
    + rewrite (handler_malformed client data w h mc de Hlen). cbn.
      repeat split; try now intros [].
  - split.
    + py_unfold. destruct (1 <? mc + 1); cbn; repeat py_case; reflexivity.
    + split.
      * py_unfold. destruct (1 <? mc + 1); cbn; repeat py_case; reflexivity.
      * intros data'. py_unfold.
        destruct (1 <? mc + 1); cbn; repeat py_case; repeat split; reflexivity.
Qed.

Lemma list_pair_ind {A} (P : list A -> Prop) :
  P [] -> (forall x, P [x]) -> (forall x y l, P l -> P (x :: y :: l)) ->
  forall l, P l.
Proof.
  intros H0 H1 H2.
  assert (H : forall l, P l /\ forall x, P (x :: l)).
  { induction l as [|y l [IHl IHx]]; [auto|]. split; [apply IHx|]. intros x. now apply H2. }
  intros l. apply H.
Qed.

(** From globals with the flag clear and the counter at 0, notifications
    are taken in pairs: the first of each pair invokes [do_measure], the
    second is typed.  If every second notification has 4 bytes, the
    keystrokes of the run are exactly those of the second, fourth, ...
    payload, in order; [do_measure] is invoked once per remaining
    notification, [clear_device] never; and the globals end as they began
    or, after an odd number of notifications, waiting with the counter at
    1. *)
Theorem run_types_every_second client w de notifications : forall h,
  Forall (fun data => length data = 4%nat) (every_second notifications) ->
  let steps := run client w h (mkGlobals false 0 de) notifications in
  subprocess_calls (whole_log steps) = flat_map keystrokes (every_second notifications)
  /\ invocations Fn_do_measure (whole_log steps)
     = (length notifications - length (every_second notifications))%nat
  /\ invocations Fn_clear_device (whole_log steps) = 0%nat
  /\ final (mkGlobals false 0 de) steps
     = if Nat.even (length notifications) then mkGlobals false 0 de
       else mkGlobals true 1 de.
Proof.
  induction notifications as [|press|press reading rest IH] using list_pair_ind;
    intros h Hlen; cbv zeta.
  - repeat split.
  - cbn [run every_second].
    destruct (handler_press client press w h 0 de) as (r & t & -> & Ht); [lia|].
    apply device_io_quiet in Ht. destruct Ht as (Hi & Hs & _ & _).
    unfold whole_log, final. cbn [flat_map map log after List.last].
    rewrite !invocations_app, !subprocess_calls_app, !Hi, Hs. repeat split.
  - cbn [every_second] in Hlen. apply Forall_cons_iff in Hlen as [Hreading Hrest].
    cbn [run every_second].
    destruct (handler_press client press w h 0 de) as (r & t & -> & Ht); [lia|].
    cbn [log after].
    destruct (handler_reading client reading w
                (h ++ [Print "received event"; Enter Fn_do_measure] ++ t) (0 + 1) de
                Hreading) as (t1 & t2 & -> & H1 & H2).
    cbn [log after].
    match goal with
    | |- context [run client w ?h' _ rest] => specialize (IH h' Hrest)
    end.
    cbv zeta in IH. destruct IH as (IHs & IHm & IHc & IHf).
    apply device_io_quiet in Ht. destruct Ht as (Hi & Hs & _ & _).
    apply failure_report_quiet in H1, H2.
    destruct H1 as (Hi1 & Hs1 & _ & _), H2 as (Hi2 & Hs2 & _ & _).
    rewrite !whole_log_cons, !final_cons. cbn [log after].
    rewrite !invocations_app, !subprocess_calls_app, !Hi, !Hi1, !Hi2, Hs, Hs1, Hs2.
    rewrite IHs, IHm, IHc, IHf. cbn [flat_map length Nat.even].
    repeat split.
    assert (length (every_second rest) <= length rest)%nat.
    { clear. induction rest as [| |x y l IHl] using list_pair_ind; cbn; lia. }
    cbn. lia.
Qed.

Lemma run_types_every_second_witness :
  let notifications :=
    [[]; [x00; x00; x00; x3f]; [x01; x02]; [x19; x04; x9e; x3f]; [x00]] in
  let steps := run disto_client fair_weather [] initial notifications in
  subprocess_calls (whole_log steps)
  = [ ["xdotool"; "type"; "500.0"]; ["xdotool"; "key"; "Return"];
      ["xdotool"; "type"; "1234.5"]; ["xdotool"; "key"; "Return"] ]
  /\ invocations Fn_do_measure (whole_log steps) = 3%nat
  /\ final initial steps = mkGlobals true 1 false.
Proof.
  cbv zeta.
  destruct (run_types_every_second disto_client fair_weather false
              [[]; [x00; x00; x00; x3f]; [x01; x02]; [x19; x04; x9e; x3f]; [x00]] [])
    as (H1 & H2 & _ & H4).
  { repeat constructor. }
  split; [exact H1|]. split; [exact H2|exact H4].
Defined.

(** Invocations that find the flag set: payloads that are not 4 bytes
    long end in [struct.error] one after the other, and the first payload
    of 4 bytes is typed. *)
Lemma awaiting_drops_until_four_bytes client w h mc de dropped reading :
  Forall (fun data => length data <> 4%nat) dropped ->
  length reading = 4%nat ->
  let steps := run client w h (mkGlobals true mc de) (dropped ++ [reading]) in
  map outcome steps = map (fun _ => Raised struct_error) dropped ++ [Returned tt]
  /\ subprocess_calls (whole_log steps) = keystrokes reading
  /\ gatt_writes (whole_log steps) = []
  /\ (forall f, invocations f (whole_log steps) = 0%nat)
  /\ final (mkGlobals true mc de) steps = mkGlobals false 0 de.
Proof.
  intros Hdropped Hreading. cbv zeta. revert h mc.
  induction dropped as [|data dropped IH]; intros h mc; cbn [app run map].
  - destruct (handler_reading client reading w h mc de Hreading)
      as (t1 & t2 & -> & H1 & H2).
    pose proof (failure_report_no_write _ H1) as W1.
    pose proof (failure_report_no_write _ H2) as W2.
    apply failure_report_quiet in H1, H2.
    destruct H1 as (Hi1 & Hs1 & _ & _), H2 as (Hi2 & Hs2 & _ & _).
    unfold whole_log, final. cbn [flat_map map log after outcome List.last].
    rewrite !subprocess_calls_app, !gatt_writes_app, Hs1, Hs2, W1, W2.
    repeat split. intros f. rewrite !invocations_app, Hi1, Hi2. now destruct f.
  - apply Forall_cons_iff in Hdropped as [Hdata Hdropped].
    rewrite (handler_malformed client data w h mc de Hdata). cbn [log after outcome].
    destruct (IH Hdropped (h ++ [Print "received event"]) 0) as (Ho & Hs & Hw & Hi & Hf).
    rewrite whole_log_cons, final_cons. cbn [log after outcome].
    rewrite Ho, subprocess_calls_app, gatt_writes_app, Hs, Hw, Hf.
    repeat split. intros f. rewrite invocations_app, Hi. now destruct f.
Qed.

(** After a press from the initial kind of globals (flag clear, counter
    0), the notifications that follow are never taken for another press
    until a reading has been typed.  Each payload that is not 4 bytes long
    ends its handler in [struct.error]; the first payload of 4 bytes is
    typed and clears the flag and the counter.  [do_measure] is invoked
    once, by the press; the handlers of the later notifications invoke
    neither it nor [clear_device] and write nothing to the device, so
    every write of the run is one of the press. *)
Theorem press_dropped_then_reading client w h de press dropped reading :
  Forall (fun data => length data <> 4%nat) dropped ->
  length reading = 4%nat ->
  let steps := run client w h (mkGlobals false 0 de) (press :: dropped ++ [reading]) in
  let first := invoke client w h (mkGlobals false 0 de) press in
  map outcome steps
  = outcome first :: map (fun _ => Raised struct_error) dropped ++ [Returned tt]
  /\ subprocess_calls (whole_log steps) = keystrokes reading
  /\ invocations Fn_do_measure (whole_log steps) = 1%nat
  /\ invocations Fn_clear_device (whole_log steps) = 0%nat
  /\ gatt_writes (whole_log steps) = gatt_writes (log first)
  /\ final (mkGlobals false 0 de) steps = mkGlobals false 0 de.
Proof.
  intros Hdropped Hreading. cbv zeta. cbn [run].
  destruct (handler_press client press w h 0 de) as (r & t & E & Ht); [lia|].
  rewrite E. cbn [log after outcome map].
  destruct (awaiting_drops_until_four_bytes client w
              (h ++ [Print "received event"; Enter Fn_do_measure] ++ t) (0 + 1) de
              dropped reading Hdropped Hreading) as (Ho & Hs & Hw & Hi & Hf).
  apply device_io_quiet in Ht. destruct Ht as (Hti & Hts & _ & _).
  rewrite whole_log_cons, final_cons. cbn [log after].
  rewrite Ho, Hf, !subprocess_calls_app, !invocations_app, !gatt_writes_app,
    Hs, Hw, !Hi, !Hti, Hts.
  repeat split. now rewrite !app_nil_r.
Qed.

Lemma press_dropped_then_reading_witness :
  let steps :=
    run disto_client fair_weather [] initial
      ([] :: [[]; [x01; x02; x03]] ++ [[x00; x00; x00; x3f]]) in
  subprocess_calls (whole_log steps) = keystrokes [x00; x00; x00; x3f]
  /\ gatt_writes (whole_log steps) = [[x6f]; [x67]]
  /\ invocations Fn_do_measure (whole_log steps) = 1%nat
  /\ final initial steps = initial.
Proof.
  cbv zeta.
  destruct (press_dropped_then_reading disto_client fair_weather [] false []
              [[]; [x01; x02; x03]] [x00; x00; x00; x3f])
    as (_ & H2 & H3 & _ & H5 & H6).
  { repeat constructor; cbn; lia. }
  { reflexivity. }
  split; [exact H2|]. split; [exact H5|]. split; [exact H3|exact H6].
Defined.

(** *** What a whole computation logs *)

Section Keeps.
Variable I : globals -> Prop.
Variable P : event -> bool.

Lemma keeps_ret {A} (a : A) : keeps I P (ret a).
Proof. intros w h g Hg. now split. Qed.

Lemma keeps_raise {A} e : keeps I P (@raise A e).
Proof. intros w h g Hg. now split. Qed.

Lemma keeps_get : keeps I P get.
Proof. intros w h g Hg. now split. Qed.

Lemma keeps_pending : keeps I P pending_notifications.
Proof. intros w h g Hg. now split. Qed.

Lemma keeps_put g' : I g' -> keeps I P (put g').
Proof. intros Hg' w h g Hg. now split. Qed.

Lemma keeps_print line : P (Print line) = true -> keeps I P (print line).
Proof. intros HP w h g Hg. cbn. now rewrite HP. Qed.

Lemma keeps_enter f : P (Enter f) = true -> keeps I P (enter f).
Proof. intros HP w h g Hg. cbn. now rewrite HP. Qed.

Lemma keeps_call {R} (o : sop R) : P (Call o) = true -> keeps I P (call o).
Proof. intros HP w h g Hg. cbn. now rewrite HP. Qed.

Lemma keeps_await {R} (o : aop R) : P (Await o) = true -> keeps I P (await o).
Proof. intros HP w h g Hg. cbn. now rewrite HP. Qed.

Lemma keeps_modify (f : globals -> globals) :
  (forall g, I g -> I (f g)) -> keeps I P (bind get (fun g => put (f g))).
Proof. intros Hf w h g Hg. cbn. split; [now apply Hf|reflexivity]. Qed.

Lemma keeps_bind {A B} (m : M A) (k : A -> M B) :
  keeps I P m -> (forall a, keeps I P (k a)) -> keeps I P (bind m k).
Proof.
  intros Hm Hk w h g Hg. unfold bind. destruct (Hm w h g Hg) as [Hg1 Ht1].
  destruct (m w h g) as [[[a|e] g1] t1]; cbn [fst snd] in *; [|now split].
  destruct (Hk a w (h ++ t1) g1 Hg1) as [Hg2 Ht2].
  destruct (k a w (h ++ t1) g1) as [[r g2] t2]; cbn [fst snd] in *.
  split; [exact Hg2|]. now rewrite forallb_app, Ht1, Ht2.
Qed.

Lemma keeps_try_except {A} (body : M A) handler :
  keeps I P body -> (forall e, keeps I P (handler e)) ->
  keeps I P (try_except body handler).
Proof.
  intros Hm Hk w h g Hg. unfold try_except. destruct (Hm w h g Hg) as [Hg1 Ht1].
  destruct (body w h g) as [[[a|[e| |]] g1] t1]; cbn [fst snd] in *; try now split.
  destruct (Hk e w (h ++ t1) g1 Hg1) as [Hg2 Ht2].
  destruct (handler e w (h ++ t1) g1) as [[r g2] t2]; cbn [fst snd] in *.
  split; [exact Hg2|]. now rewrite forallb_app, Ht1, Ht2.
Qed.

Lemma keeps_try_finally {A} (body : M A) final :
  keeps I P body -> keeps I P final -> keeps I P (try_finally body final).
Proof.
  intros Hm Hk w h g Hg. unfold try_finally. destruct (Hm w h g Hg) as [Hg1 Ht1].
  destruct (body w h g) as [[r g1] t1]; cbn [fst snd] in *.
  destruct (Hk w (h ++ t1) g1 Hg1) as [Hg2 Ht2].
  destruct (final w (h ++ t1) g1) as [[rf g2] t2]; cbn [fst snd] in *.
  split; [exact Hg2|]. now rewrite forallb_app, Ht1, Ht2.
Qed.

Lemma keeps_task (body : M unit) : keeps I P body -> keeps I P (task body).
Proof.
  intros Hm w h g Hg. unfold task. destruct (Hm w h g Hg) as [Hg1 Ht1].
  now destruct (body w h g) as [[r g1] t1].
Qed.

Lemma keeps_dispatch callback notifications :
  (forall data, keeps I P (callback data)) -> keeps I P (dispatch callback notifications).
Proof.
  intros Hcb. induction notifications as [|data rest IH]; cbn [dispatch].
  - apply keeps_ret.
  - apply keeps_bind; [apply keeps_task, Hcb|intros _; exact IH].
Qed.
End Keeps.

Create HintDb keeps.
#[local] Hint Resolve keeps_ret keeps_raise keeps_get keeps_pending keeps_task : keeps.

(** Break a computation down to its calls; the side conditions on single
    log entries are settled by evaluation. *)
Ltac by_keeps :=
  repeat first
    [ progress intros
    | assumption
    | solve [auto with keeps]
    | apply keeps_print; reflexivity
    | apply keeps_enter; reflexivity
    | apply keeps_call; reflexivity
    | apply keeps_await; reflexivity
    | apply keeps_modify; first [intros; exact Logic.I | intros [? ? ?] H; exact H]
    | apply keeps_put; first [exact Logic.I | solve [auto with keeps]]
    | apply keeps_bind
    | apply keeps_try_except
    | apply keeps_try_finally
    | apply keeps_dispatch
    | match goal with
      | |- keeps _ _ (match ?x with _ => _ end) => destruct x
      | |- keeps _ _ (if ?x then _ else _) => destruct x
      end ].

Lemma main_keeps_commands : keeps anything writes_commands_only main.
Proof.
  assert (Hfind : forall s devices, keeps anything writes_commands_only
                                      (find_target_device s devices)).
  { intros s. induction devices; cbn [find_target_device]; unfold subscript; by_keeps. }
  unfold main, scan_and_connect, handle_notifications, wait_for_disconnect,
    handle_keyboard_interrupt, notification_wrapper, do_measure, clear_device,
    send_keys, send_enter, struct_unpack_f, with_counter_lock, button_clicked_is_set,
    button_clicked_set, button_clicked_clear, read_miss_counter, write_miss_counter.
  by_keeps.
Qed.

(** Whatever the environment does and whatever notifications arrive, the
    only things [main] ever writes to a characteristic are the three
    one-byte commands 0x6F, 0x67 and 0x70. *)
Theorem main_writes_commands_only w h g :
  Forall (fun data => data = [x6f] \/ data = [x67] \/ data = [x70])
    (gatt_writes (main w h g).2).
Proof.
  destruct (main_keeps_commands w h g Logic.I) as [_ Hall].
  induction ((main w h g).2) as [|e t IH]; [constructor|].
  cbn in Hall. apply andb_prop in Hall as [He Ht].
  change (e :: t) with ([e] ++ t). rewrite gatt_writes_app.
  apply Forall_app. split; [|exact (IH Ht)].
  destruct e as [|R o|R o|]; cbn; try constructor.
  destruct o; cbn; try constructor; [|constructor].
  cbn in He. destruct data as [|b [|]]; try discriminate.
  destruct b; try discriminate; auto.
Qed.

Lemma invoke_after_log client w h g data :
  after (invoke client w h g data) = (notification_wrapper client data w h g).1.2
  /\ log (invoke client w h g data) = (notification_wrapper client data w h g).2.
Proof. unfold invoke. now destruct (notification_wrapper _ _ _ _ _) as [[? ?] ?]. Qed.

Lemma device_io_not_clear_device t :
  forallb device_io t = true -> forallb not_clear_device t = true.
Proof.
  induction t as [|e t IH]; cbn; [easy|]. intros [He Ht]%andb_prop.
  rewrite (IH Ht), andb_true_r. now destruct e.
Qed.

Lemma failure_report_not_clear_device t :
  forallb failure_report t = true -> forallb not_clear_device t = true.
Proof.
  induction t as [|e t IH]; cbn; [easy|]. intros [He Ht]%andb_prop.
  rewrite (IH Ht), andb_true_r. now destruct e.
Qed.

Lemma not_clear_device_invocations t :
  forallb not_clear_device t = true -> invocations Fn_clear_device t = 0%nat.
Proof.
  unfold invocations, not_clear_device.
  induction t as [|e t IH]; cbn; [easy|]. intros [He Ht]%andb_prop.
  destruct (entered Fn_clear_device e); [discriminate|auto].
Qed.

(** From globals of the reachable shape the handler stays within that
    shape and never invokes [clear_device]. *)
Lemma handler_keeps_shape client data :
  keeps reachable_shape not_clear_device (notification_wrapper client data).
Proof.
  intros w h g Hg.
  destruct (invoke_after_log client w h g data) as [<- <-].
  destruct g as [[] mc de]; unfold reachable_shape in *; cbn in Hg.
  - destruct (Nat.eq_dec (length data) 4%nat) as [Hlen|Hlen].
    + destruct (handler_reading client data w h mc de Hlen) as (t1 & t2 & -> & H1 & H2).
      cbn [after log button_clicked miss_counter]. split; [reflexivity|].
      rewrite !forallb_app.
      now rewrite (failure_report_not_clear_device _ H1),
        (failure_report_not_clear_device _ H2).
    + rewrite (handler_malformed client data w h mc de Hlen). cbn. split; [lia|reflexivity].
  - destruct (handler_press client data w h mc de) as (r & t & -> & Ht); [lia|].
    cbn [after log button_clicked miss_counter]. split; [lia|].
    rewrite forallb_app. now rewrite (device_io_not_clear_device _ Ht).
Qed.

Lemma scan_keeps_shape service_uuid :
  keeps reachable_shape not_clear_device (scan_and_connect service_uuid).
Proof.
  assert (Hfind : forall devices, keeps reachable_shape not_clear_device
                                    (find_target_device service_uuid devices)).
  { induction devices; cbn [find_target_device]; unfold subscript; by_keeps. }
  unfold scan_and_connect. by_keeps.
Qed.

Lemma subscription_keeps_shape client :
  keeps reachable_shape not_clear_device
    (bind (call add_signal_handler_SIGINT) (fun _ => handle_notifications client)).
Proof.
  pose proof (handler_keeps_shape client) as Hh.
  unfold handle_notifications, wait_for_disconnect, handle_keyboard_interrupt. by_keeps.
Qed.

(** In a session that starts from globals of the reachable shape (the
    initial ones, for instance) and gets a client, [clear_device] is
    invoked exactly once, by [main] itself: however many notifications
    arrive, whatever their payloads and whatever the calls return, the
    handler never invokes it. *)
Theorem main_clears_device_once w h g client g1 t1 :
  reachable_shape g ->
  scan_and_connect default_service_uuid w h g = (Returned (Some client), g1, t1) ->
  invocations Fn_clear_device (main w h g).2 = 1%nat.
Proof.
  intros Hg Hscan.
  destruct (scan_keeps_shape default_service_uuid w h g Hg) as [Hg1 Ht1].
  unfold main. unfold bind at 1. rewrite Hscan in *. cbn [fst snd] in Hg1, Ht1.
  unfold try_finally, try_except. unfold bind at 1.
  destruct (clear_device_spec client w (h ++ t1) g1) as (r & t & -> & Ht).
  apply device_io_not_clear_device, not_clear_device_invocations in Ht.
  apply not_clear_device_invocations in Ht1.
  destruct r as [[]|e].
  - destruct (subscription_keeps_shape client w
                ((h ++ t1) ++ Enter Fn_clear_device :: t) g1 Hg1) as [_ Hsub].
    destruct (bind (call add_signal_handler_SIGINT) _ w _ g1) as [[r2 g2] t2].
    cbn [fst snd] in Hsub. apply not_clear_device_invocations in Hsub.
    destruct r2 as [[]|[e| |]]; unfold print, await; cbn [fst snd];
      change (Enter Fn_clear_device :: t) with ([Enter Fn_clear_device] ++ t);
      rewrite ?invocations_app, Ht1, Ht, Hsub; reflexivity.
  - destruct e as [e| |]; unfold print, await; cbn [fst snd];
      change (Enter Fn_clear_device :: t) with ([Enter Fn_clear_device] ++ t);
      rewrite ?invocations_app, Ht1, Ht; reflexivity.
Qed.

Lemma main_clears_device_once_witness :
  reachable_shape initial
  /\ invocations Fn_clear_device (main fair_weather [] initial).2 = 1%nat.
Proof.
  split; [reflexivity|].
  eapply (main_clears_device_once fair_weather [] initial disto_client).
  - reflexivity.
  - vm_compute. reflexivity.
Defined.

(** *** What is typed for a reading *)

Lemma round_half_even_zero e : round_half_even 0 e = 0.
Proof.
  unfold round_half_even. destruct (Z.leb_spec 0 e); [apply Z.shiftl_0_l|].
  rewrite Z.shiftl_1_l.
  assert (0 < 2 ^ (- e)) by (apply Z.pow_pos_nonneg; lia).
  rewrite Z.div_0_l, Z.mod_0_l by lia.
  change (2 * 0) with 0. change (Z.odd 0) with false.
  rewrite andb_false_r, orb_false_r.
  destruct (Z.ltb_spec (2 ^ (- e)) 0); [lia|reflexivity].
Qed.

(** The string typed for a 4-byte payload, for every bit pattern.  A NaN
    is typed as [nan] and an infinity as [inf] or [-inf]: the handler does
    not validate the reading.  A finite reading [m * 2^e] metres is typed
    as the tenth of a millimetre nearest to it (ties to even), with a
    leading [-] when the sign bit is set, even for zero. *)
Theorem typed_is_nearest_tenth data :
  match decode_binary32 (le_uint data) with
  | NaN => typed data = "nan"
  | Inf neg => typed data = if neg then "-inf" else "inf"
  | Finite neg m e =>
      let tenths := round_half_even (m * 10000) e in
      typed data
      = ((if neg then "-" else "") ++ decimal (tenths / 10) ++ "."
         ++ decimal (tenths mod 10))%string
      /\ (0 <= e -> tenths = m * 10000 * 2 ^ e)
      /\ (e < 0 -> 2 * Z.abs (tenths * 2 ^ (- e) - m * 10000) <= 2 ^ (- e))
  end.
Proof.
  unfold typed. rewrite mul_1000_exact.
  pose proof (decode_binary32_range (le_uint data)) as Hr.
  destruct (decode_binary32 (le_uint data)) as [|[]|neg m e]; try reflexivity.
  destruct Hr as [Hm He]. cbv zeta. split; [|split].
  - destruct (Z.eqb_spec m 0) as [->|_].
    + cbn [Z.mul format_1f]. rewrite !round_half_even_zero. reflexivity.
    + cbn [format_1f]. now replace (m * 1000 * 10) with (m * 10000) by ring.
  - intros Hpos. unfold round_half_even.
    destruct (Z.leb_spec 0 e); [|lia]. now rewrite Z.shiftl_mul_pow2.
  - intros Hneg. apply (round_half_even_nearest (m * 10000) e); lia.
Qed.

(** *** The session *)

(** [handle_notifications] on a device without the distance
    characteristic reports it and returns at once: nothing is subscribed
    and no notification is handled.  With the characteristic, it returns
    normally only after the wait on [disconnect_event] has returned, with
    the event set by the SIGINT handler: no notification, whatever its
    handler does or raises, ends it. *)
Theorem handle_notifications_ends_on_sigint client w h g :
  let lookup := get_characteristic client DISTANCE_CHARACTERISTIC_UUID in
  let '(r, g', t) := handle_notifications client w h g in
  (call_outcome w _ h lookup = inr None ->
   r = Returned tt /\ g' = g
   /\ t = [Call lookup; Print "Distance characteristic not found."])
  /\ (forall char,
        call_outcome w _ h lookup = inr (Some char) ->
        r = Returned tt ->
        disconnect_event g' = true
        /\ exists handled,
             t = [Call lookup; Await (start_notify client char)] ++ handled
                 ++ [Await disconnect_event_wait;
                     Print "Keyboard interrupt detected. Disconnecting..."]).
Proof.
  cbv zeta. unfold handle_notifications. unfold bind at 1. unfold call at 1.
  destruct (call_outcome w _ h _) as [e|[char|]]; cbn [fst snd].
  - split; [intros [=]|intros char [=]].
  - unfold bind at 1. unfold await at 1.
    destruct (await_outcome w _ _ (start_notify client char)) as [[]|e];
      [|split; [intros [=]|intros char' _ [=]]].
    unfold wait_for_disconnect. unfold bind at 1. unfold pending_notifications at 1.
    unfold bind at 1. rewrite dispatch_run. unfold bind at 1. unfold await at 1.
    destruct (await_outcome w _ _ disconnect_event_wait) as [[]|e];
      [|split; [intros [=]|intros char' _ [=]]].
    unfold handle_keyboard_interrupt, bind, print, get, put. cbn.
    split; [intros [=]|]. intros char' [= <-] _.
    split; [reflexivity|]. eexists. reflexivity.
  - split; [|intros char [=]]. intros _. repeat split.
Qed.

(** When the scan reports only devices that do not list the lower-cased
    target, [main] ends normally having only scanned: it prints one line
    per device and "Target device not found.", makes no client, registers
    no signal handler, and attempts neither a write nor a disconnect. *)
Theorem main_without_target w h g devices :
  await_outcome w _
    (h ++ [Print ("Scanning for devices with service UUID: "
                  ++ default_service_uuid)%string])
    BleakScanner_discover = Returned devices ->
  Forall (passed_over default_service_uuid) devices ->
  main w h g
  = (Returned tt, g,
     [Print ("Scanning for devices with service UUID: " ++ default_service_uuid)%string;
      Await BleakScanner_discover]
     ++ map found_line devices
     ++ [Print "Target device not found."]).
Proof.
  intros Hscan Hall. unfold main. unfold bind at 1.
  unfold scan_and_connect, try_except. unfold bind at 1. unfold print at 1. cbn [fst snd].
  unfold bind at 1. unfold await at 1. rewrite Hscan.
  unfold bind at 1.
  rewrite <- (app_nil_r devices) at 1.
  rewrite (find_target_device_skip_prefix default_service_uuid devices [] w _ g Hall).
  cbn [find_target_device]. unfold ret, print, bind. cbn.
  now rewrite !app_nil_r.
Qed.

Lemma main_without_target_witness :
  main upper_case_scan [] initial
  = (Returned tt, initial,
     [Print "Scanning for devices with service UUID: 3ab10100-f831-4395-b29d-570977d5bf94";
      Await BleakScanner_discover; found_line disto_upper;
      Print "Target device not found."]).
Proof.
  apply (main_without_target upper_case_scan [] initial [disto_upper] eq_refl).
  repeat constructor. eexists. split; [reflexivity|]. vm_compute.
  intros H. apply list_elem_of_In in H. destruct H as [H|[]]. discriminate.
Defined.

(** When [clear_device] raises an [Exception] at the start of a session,
    [main] prints the error and goes straight to [disconnect()]: no signal
    handler is registered and the notifications are never subscribed. *)
Theorem main_clear_device_failure w h g client g1 t1 e g2 t2 :
  scan_and_connect default_service_uuid w h g = (Returned (Some client), g1, t1) ->
  clear_device client w (h ++ t1) g1 = (Raised (Exc e), g2, t2) ->
  main w h g
  = (match await_outcome w _
             ((h ++ t1) ++ t2 ++ [Print ("Error: " ++ exc_str e)%string])
             (disconnect client) with
     | Raised e' => Raised e'
     | Returned _ => Returned tt
     end,
     g2,
     t1 ++ t2 ++ [Print ("Error: " ++ exc_str e)%string; Await (disconnect client)]).
Proof.
  intros Hscan Hclear. unfold main. unfold bind at 1. rewrite Hscan.
  unfold try_finally, try_except. unfold bind at 1. rewrite Hclear.
  unfold print, await. cbn [fst snd]. now rewrite <- !app_assoc.
Qed.

Lemma main_clear_device_failure_witness :
  (main writes_fail [] initial).1.1 = Returned tt
  /\ forallb not_start_notify (main writes_fail [] initial).2 = true
  /\ disconnects (main writes_fail [] initial).2 = [disto_client].
Proof.
  rewrite (main_clear_device_failure writes_fail [] initial disto_client initial
             (scan_and_connect default_service_uuid writes_fail [] initial).2
             BleakError initial
             [Enter Fn_clear_device;
              Call (get_characteristic disto_client COMMAND_CHARACTERISTIC_UUID);
              Await (write_gatt_char disto_client disto_command [x70])]
             eq_refl eq_refl).
  repeat split.
Defined.

(** An [Exception] leaves [main] only if [disconnect()] itself raised it:
    those of the scan are caught in [scan_and_connect], those of the
    session by the [except] clause of [main]. *)
Theorem main_raises_only_from_disconnect w h g e :
  (main w h g).1.1 = Raised (Exc e) ->
  exists client h', await_outcome w _ h' (disconnect client) = Raised (Exc e).
Proof.
  unfold main. unfold bind at 1.
  pose proof (scan_and_connect_result default_service_uuid w h g) as Hscan.
  destruct (scan_and_connect default_service_uuid w h g) as [[r g1] t1].
  destruct Hscan as [_ [->|[[client ->]|[->| ->]]]]; try discriminate.
  unfold try_finally.
  match goal with
  | |- context [try_except ?body ?handler w ?h' g1] =>
      assert (Hbody : forall e', (try_except body handler w h' g1).1.1 <> Raised (Exc e'));
      [|destruct (try_except body handler w h' g1) as [[r g2] t2]]
  end.
  { intros e'. unfold try_except.
    match goal with |- context [match ?b with _ => _ end] => destruct b as [[[[]|[e0| |]] g2] t2] end;
      discriminate. }
  unfold await. cbn [fst snd] in *.
  destruct (await_outcome w _ _ (disconnect client)) as [[]|e'] eqn:Hd.
  - intros Hr. now destruct (Hbody e).
  - intros [= ->]. eauto.
Qed.

Lemma main_raises_only_from_disconnect_witness :
  (main disconnect_fails [] initial).1.1 = Raised (Exc BleakError)
  /\ exists client h',
       await_outcome disconnect_fails _ h' (disconnect client) = Raised (Exc BleakError).
Proof.
  assert (H : (main disconnect_fails [] initial).1.1 = Raised (Exc BleakError))
    by (vm_compute; reflexivity).
  split; [exact H|].
  exact (main_raises_only_from_disconnect disconnect_fails [] initial BleakError H).
Defined.

End More.
